(** * OTC swap client: the transaction / event-aggregation core

    A shallow embedding of [OTCClient] (the ethers-based client of the
    OTC swap escrow contract) and the properties its specification
    states about it.

    - JavaScript values are modelled as far as the client looks at them:
      strings, integer [Number]s and [BigInt]s (with the [TypeError] the
      language raises when the two are mixed by [+]), thrown values.
    - Every [await]ed interaction with the ledger, a token contract or the
      signer is a [Call]; the environment answers each call or makes it
      throw, and every operation records the calls it issues, in order.
    - The clock is the environment's [Date_now], in milliseconds. *)

From Stdlib Require Import ZArith NArith QArith Qround String Ascii List Bool Lia.
From Stdlib Require Import DecimalString DecimalN.
From stdpp Require Import base decidable list strings gmap sets.
Import ListNotations.

Local Open Scope string_scope.
Local Open Scope Z_scope.
Local Open Scope list_scope.

(** ** JavaScript values *)

Module Js.

(** What a [throw] carries: an [Error] with its message, or any other
    value.  The client's [catch] blocks tell the two apart with
    [instanceof Error]. *)
Inductive Thrown : Type :=
| JsError (message : string)
| JsOther (value : string).

Inductive Result (A : Type) : Type :=
| Ok (a : A)
| Raised (t : Thrown).
Arguments Ok {A} a.
Arguments Raised {A} t.

(** Integer-valued numerics.  ethers decodes every Solidity integer to a
    [BigInt]; [Math.floor(Date.now() / 1000)] and literals are [Number]s.
    The sums of Numbers the client forms (clock, timestamps, day
    constants) are taken as exact integers. *)
Inductive Num : Type :=
| JNumber (z : Z)
| JBigInt (z : Z).

Definition TypeError_mix : Thrown :=
  JsError "Cannot mix BigInt and other types, use explicit conversions".

(** [a + b]: defined within one numeric type, a [TypeError] across them. *)
Definition add (a b : Num) : Result Num :=
  match a, b with
  | JNumber x, JNumber y => Ok (JNumber (x + y))
  | JBigInt x, JBigInt y => Ok (JBigInt (x + y))
  | _, _ => Raised TypeError_mix
  end.

Definition value (a : Num) : Z :=
  match a with JNumber z => z | JBigInt z => z end.

(** [a > b]: relational operators compare a BigInt and a Number by
    mathematical value. *)
Definition gt (a b : Num) : bool := value a >? value b.

(** [BigInt.prototype.toString()] of an unsigned ledger integer:
    its decimal digits. *)
Definition toString (n : N) : string :=
  NilEmpty.string_of_uint (N.to_uint n).

(** The double nearest to an unsigned integer (ties to the even
    significand): the integer itself below 2^53, and from there on the
    integer rounded to its 53 leading bits.  A ledger integer (at most
    256 bits) never overflows to [Infinity]. *)
Definition round_to_double (n : N) : N :=
  if (n <? 2 ^ 53)%N then n
  else
    let k := (N.log2 n - 52)%N in
    let q := (n / 2 ^ k)%N in
    let r := (n mod 2 ^ k)%N in
    let half := (2 ^ (k - 1))%N in
    let q' :=
      if (r <? half)%N then q
      else if (half <? r)%N then (q + 1)%N
      else if N.even q then q else (q + 1)%N in
    (q' * 2 ^ k)%N.

(** [Number(b)] of an unsigned ledger integer. *)
Definition Number (n : N) : Z := Z.of_N (round_to_double n).

Definition lower_ascii (c : ascii) : ascii :=
  let n := N_of_ascii c in
  if ((65 <=? n) && (n <=? 90))%N then ascii_of_N (n + 32) else c.

(** [String.prototype.toLowerCase()] on ASCII text (addresses are
    hexadecimal). *)
Fixpoint toLowerCase (s : string) : string :=
  match s with
  | EmptyString => EmptyString
  | String c s' => String (lower_ascii c) (toLowerCase s')
  end.

(** [a === b] and [a !== b] on strings. *)
Definition strict_eq (a b : string) : bool := String.eqb a b.
Definition strict_ne (a b : string) : bool := negb (String.eqb a b).

(** Truthiness of an optional string parameter: [null], [undefined] and
    the empty string are falsy. *)
Definition truthy (o : option string) : bool :=
  match o with
  | None => false
  | Some s => negb (String.eqb s "")
  end.

(** [Date.now() / 1000], a fractional number of seconds. *)
Definition seconds (ms : Z) : Q := ms # 1000.

(** [x > y] and [x <= y] on fractional numbers. *)
Definition Qgtb (x y : Q) : bool := negb (Qle_bool x y).
Definition Qleb (x y : Q) : bool := Qle_bool x y.

(** [Math.floor(Date.now() / 1000)]. *)
Definition floor_seconds (ms : Z) : Z := Qfloor (seconds ms).

End Js.
Import Js.

(** ** ethers *)

Definition ZeroAddress : string := "0x0000000000000000000000000000000000000000".

(** The decoded arguments of a ledger event, [EventLog.args]. *)
Module Args.
Record t : Type := mk {
  orderId : N;
  maker : string;
  taker : string;
  sellToken : string;
  sellAmount : N;
  buyToken : string;
  buyAmount : N;
  timestamp : N;
  orderCreationFee : N;
  oldOrderId : N;
  newOrderId : N;
  tries : N;
  reason : string;
  recipient : string;
  amount : N
}.
End Args.

(** [EventLog]: a log with its decoded arguments; [fragment] is absent on
    a log the interface could not parse ([fragment?.name]). *)
Record EventLog : Type := mkLog {
  fragment : option string;
  args : Args.t;
  log_blockNumber : Z
}.

Record Receipt : Type := mkReceipt {
  hash : string;
  blockNumber : Z;
  logs : list EventLog
}.

(** The record [contract.orders(orderId)] resolves to, as far as the
    client reads it.  The binding is untyped ([any]); ethers decodes the
    timestamp, a [uint256], to a BigInt. *)
Module LedgerOrder.
Record t : Type := mk {
  maker : string;
  taker : string;
  timestamp : Js.Num;
  isActive : bool
}.
End LedgerOrder.

Inductive BlockTag : Type :=
| latest
| block (n : Z).

Definition Signer : Type := string.
Definition Tx : Type := N.

(** ** The environment *)

Inductive Call : Type :=
| CallOrderCreationFee
| CallOrders (orderId : Z)
| CallGetAddress (s : Signer)
| CallBalanceOf (token owner : string)
| CallApprove (token spender : string) (amount : Z)
| CallWait (tx : Tx)
| CallCreateOrder (taker sellToken : string) (sellAmount : Z)
                  (buyToken : string) (buyAmount : Z) (value : N)
| CallFillOrder (orderId : Z)
| CallCancelOrder (orderId : Z)
| CallCleanupExpiredOrders
| CallQueryFilter (event : string) (fromBlock : Z) (toBlock : BlockTag)
| CallORDER_EXPIRY
| CallGRACE_PERIOD.

Definition answer (c : Call) : Type :=
  match c with
  | CallOrderCreationFee => N
  | CallOrders _ => option LedgerOrder.t
  | CallGetAddress _ => string
  | CallBalanceOf _ _ => N
  | CallApprove _ _ _ => Tx
  | CallWait _ => Receipt
  | CallCreateOrder _ _ _ _ _ _ => Tx
  | CallFillOrder _ => Tx
  | CallCancelOrder _ => Tx
  | CallCleanupExpiredOrders => Tx
  | CallQueryFilter _ _ _ => list EventLog
  | CallORDER_EXPIRY => N
  | CallGRACE_PERIOD => N
  end.

Record World : Type := mkWorld {
  respond : forall c : Call, Result (answer c);
  Date_now : Z
}.

Definition Trace : Type := list Call.

(** An asynchronous computation: it extends the trace of issued calls and
    resolves to a value or rejects. *)
Definition M (A : Type) : Type := Trace -> Trace * Result A.

Definition ret {A} (a : A) : M A := fun tr => (tr, Ok a).

Definition throw {A} (t : Thrown) : M A := fun tr => (tr, Raised t).

Definition bind {A B} (m : M A) (k : A -> M B) : M B :=
  fun tr =>
    match m tr with
    | (tr', Ok a) => k a tr'
    | (tr', Raised t) => (tr', Raised t)
    end.

Notation "x <- m ;; k" := (bind m (fun x => k))
  (at level 100, m at next level, right associativity).

Notation "m ;; k" := (bind m (fun _ => k))
  (at level 100, right associativity).

Definition lift {A} (r : Result A) : M A := fun tr => (tr, r).

(** [await] of one call. *)
Definition await (w : World) (c : Call) : M (answer c) :=
  fun tr => (tr ++ [c], respond w c).

(** [throw new Error(msg)] *)
Definition throw_error {A} (msg : string) : M A := throw (JsError msg).

(** [try { m } catch (error) { if (error instanceof Error) throw new
    Error(`${context}: ${error.message}`); throw error; }] *)
Definition rethrow (context : string) (t : Thrown) : Thrown :=
  match t with
  | JsError message => JsError (context +:+ ": " +:+ message)
  | JsOther v => JsOther v
  end.

Definition try_rethrow {A} (context : string) (m : M A) : M A :=
  fun tr =>
    match m tr with
    | (tr', Ok a) => (tr', Ok a)
    | (tr', Raised t) => (tr', Raised (rethrow context t))
    end.

(** [try { m } catch (error) { return d; }] *)
Definition try_default {A} (m : M A) (d : A) : M A :=
  fun tr =>
    match m tr with
    | (tr', Ok a) => (tr', Ok a)
    | (tr', Raised _) => (tr', Ok d)
    end.

(** [Promise.all([ma, mb])]: both calls are issued; the aggregate rejects
    when one of them does (with the first rejection in array order). *)
Definition all2 {A B} (ma : M A) (mb : M B) : M (A * B) :=
  fun tr =>
    let '(tr1, ra) := ma tr in
    let '(tr2, rb) := mb tr1 in
    (tr2, match ra, rb with
          | Ok a, Ok b => Ok (a, b)
          | Raised t, _ => Raised t
          | _, Raised t => Raised t
          end).

(** [logs.find(log => log.fragment?.name === name)] *)
Definition has_name (name : string) (log : EventLog) : bool :=
  match fragment log with
  | Some n => strict_eq n name
  | None => false
  end.

Definition find_event (name : string) (ls : list EventLog) : option EventLog :=
  List.find (has_name name) ls.

(** [logs.filter(log => log.fragment?.name === name)] *)
Definition filter_events (name : string) (ls : list EventLog) : list EventLog :=
  List.filter (has_name name) ls.

(** ** The client *)

Module OTCClient.

Record t : Type := mk {
  signer : option Signer;
  (** [this.contract.target], the ledger's address *)
  target : string
}.

Definition connect (c : t) (s : Signer) : t :=
  {| signer := Some s; target := target c |}.

Module OrderParams.
Record t : Type := mk {
  taker : option string;
  sellToken : string;
  sellAmount : Z;
  buyToken : string;
  buyAmount : Z
}.
End OrderParams.

Module FillOrderParams.
Record t : Type := mk {
  orderId : Z;
  buyToken : string;
  buyAmount : Z
}.
End FillOrderParams.

Module GetActiveOrdersParams.
Record t : Type := mk {
  fromBlock : option Z;
  toBlock : option BlockTag;
  makerAddress : option string;
  sellToken : option string;
  buyToken : option string
}.
(** [params = {}] *)
Definition empty : t := mk None None None None None.
End GetActiveOrdersParams.

(** The order objects [getActiveOrders] builds. *)
Module Token.
Record t : Type := mk { token : string; amount : string }.
End Token.

Module Order.
Record t : Type := mk {
  orderId : Z;
  maker : string;
  taker : string;
  sell : Token.t;
  buy : Token.t;
  createdAt : Z;
  orderCreationFee : string;
  isActive : bool
}.
End Order.

Record Pagination : Type := mkPagination { hasMore : bool; nextOffset : Z }.

Record ActiveOrders : Type := mkActiveOrders {
  orders : list Order.t;
  pagination : Pagination
}.

Record Creation : Type := mkCreation {
  c_timestamp : Z; c_blockNumber : Z; c_fee : N
}.

Record Created : Type := mkCreated {
  created_orderId : N;
  created_txHash : string;
  created_maker : string;
  creation : Creation
}.

Record Stamp : Type := mkStamp { s_timestamp : Z; s_blockNumber : Z }.

Record Filled : Type := mkFilled {
  filled_orderId : Z;
  filled_txHash : string;
  filled_taker : string;
  fill : Stamp
}.

Record Canceled : Type := mkCanceled {
  canceled_orderId : Z;
  canceled_txHash : string;
  cancellation : Stamp
}.

Definition require_signer {A} (c : t) (k : Signer -> M A) : M A :=
  match signer c with
  | None => throw_error "No signer connected"
  | Some s => k s
  end.

Definition SECONDS_7_DAYS : Z := 7 * 24 * 60 * 60.
Definition SECONDS_14_DAYS : Z := 14 * 24 * 60 * 60.

Definition createOrder (w : World) (c : t) (params : OrderParams.t) : M Created :=
  require_signer c (fun _ =>
    let taker := default ZeroAddress (OrderParams.taker params) in
    let sellToken := OrderParams.sellToken params in
    let sellAmount := OrderParams.sellAmount params in
    let buyToken := OrderParams.buyToken params in
    let buyAmount := OrderParams.buyAmount params in
    try_rethrow "Failed to create order" (
      fee <- await w CallOrderCreationFee ;;
      let minFee := (fee * 90 / 100)%N in
      let maxFee := (fee * 150 / 100)%N in
      if strict_eq sellToken ZeroAddress then throw_error "Invalid sell token"
      else if strict_eq buyToken ZeroAddress then throw_error "Invalid buy token"
      else if strict_eq sellToken buyToken then throw_error "Cannot swap same token"
      else if sellAmount <=? 0 then throw_error "Invalid sell amount"
      else if buyAmount <=? 0 then throw_error "Invalid buy amount"
      else
        approveTx <- await w (CallApprove sellToken (target c) sellAmount) ;;
        await w (CallWait approveTx) ;;
        tx <- await w (CallCreateOrder taker sellToken sellAmount
                                       buyToken buyAmount fee) ;;
        receipt <- await w (CallWait tx) ;;
        match find_event "OrderCreated" (logs receipt) with
        | None => throw_error "OrderCreated event not found"
        | Some event =>
            ret {| created_orderId := Args.orderId (args event);
                   created_txHash := hash receipt;
                   created_maker := Args.maker (args event);
                   creation :=
                     {| c_timestamp := Number (Args.timestamp (args event));
                        c_blockNumber := blockNumber receipt;
                        c_fee := Args.orderCreationFee (args event) |} |}
        end)).

Definition fillOrder (w : World) (c : t) (params : FillOrderParams.t) : M Filled :=
  require_signer c (fun s =>
    let orderId := FillOrderParams.orderId params in
    let buyToken := FillOrderParams.buyToken params in
    let buyAmount := FillOrderParams.buyAmount params in
    try_rethrow "Failed to fill order" (
      order <- await w (CallOrders orderId) ;;
      match order with
      | None => throw_error "Order does not exist"
      | Some order =>
        if negb (LedgerOrder.isActive order) then throw_error "Order is not active"
        else
          let currentTime := JNumber (floor_seconds (Date_now w)) in
          expiry <- lift (Js.add (LedgerOrder.timestamp order)
                                 (JNumber SECONDS_7_DAYS)) ;;
          if Js.gt currentTime expiry then throw_error "Order has expired"
          else
            (if strict_ne (LedgerOrder.taker order) ZeroAddress then
               signerAddress <- await w (CallGetAddress s) ;;
               if strict_ne (LedgerOrder.taker order) signerAddress
               then throw_error "Not authorized to fill this order"
               else ret tt
             else ret tt) ;;
            signerAddress <- await w (CallGetAddress s) ;;
            balance <- await w (CallBalanceOf buyToken signerAddress) ;;
            if Z.of_N balance <? buyAmount
            then throw_error "Insufficient balance for buy token"
            else
              approveTx <- await w (CallApprove buyToken (target c) buyAmount) ;;
              await w (CallWait approveTx) ;;
              tx <- await w (CallFillOrder orderId) ;;
              receipt <- await w (CallWait tx) ;;
              match find_event "OrderFilled" (logs receipt) with
              | None => throw_error "OrderFilled event not found"
              | Some event =>
                  ret {| filled_orderId := orderId;
                         filled_txHash := hash receipt;
                         filled_taker := Args.taker (args event);
                         fill :=
                           {| s_timestamp := Number (Args.timestamp (args event));
                              s_blockNumber := blockNumber receipt |} |}
              end
      end)).

Definition cancelOrder (w : World) (c : t) (orderId : Z) : M Canceled :=
  require_signer c (fun s =>
    try_rethrow "Failed to cancel order" (
      order <- await w (CallOrders orderId) ;;
      match order with
      | None => throw_error "Order does not exist"
      | Some order =>
        signerAddress <- await w (CallGetAddress s) ;;
        if strict_ne (LedgerOrder.maker order) signerAddress
        then throw_error "Only maker can cancel order"
        else
          let currentTime := JBigInt (floor_seconds (Date_now w)) in
          gracePeriodEnd <- lift (Js.add (LedgerOrder.timestamp order)
                                         (JBigInt SECONDS_14_DAYS)) ;;
          if Js.gt currentTime gracePeriodEnd
          then throw_error "Grace period has expired"
          else
            tx <- await w (CallCancelOrder orderId) ;;
            receipt <- await w (CallWait tx) ;;
            match find_event "OrderCanceled" (logs receipt) with
            | None => throw_error "OrderCanceled event not found"
            | Some event =>
                ret {| canceled_orderId := orderId;
                       canceled_txHash := hash receipt;
                       cancellation :=
                         {| s_timestamp := Number (Args.timestamp (args event));
                            s_blockNumber := blockNumber receipt |} |}
            end
      end)).

(** *** Active orders *)

(** [new Set(events.map(e => e.args.orderId.toString()))] *)
Definition id_set (key : Args.t -> N) (events : list EventLog) : gset string :=
  list_to_set (map (fun e => toString (key (args e))) events).

(** The object one [OrderCreated] event is mapped to. *)
Definition toOrder (event : EventLog) : Order.t :=
  {| Order.orderId := Number (Args.orderId (args event));
     Order.maker := Args.maker (args event);
     Order.taker := Args.taker (args event);
     Order.sell := {| Token.token := Args.sellToken (args event);
                      Token.amount := toString (Args.sellAmount (args event)) |};
     Order.buy := {| Token.token := Args.buyToken (args event);
                     Token.amount := toString (Args.buyAmount (args event)) |};
     Order.createdAt := Number (Args.timestamp (args event));
     Order.orderCreationFee := toString (Args.orderCreationFee (args event));
     Order.isActive := true |}.

(** The predicate of the [filter] over the creation events. *)
Definition keep_created (filledOrderIds canceledOrderIds cleanedOrderIds
                           retriedOrderIds : gset string)
                        (currentTimestamp ORDER_EXPIRY : Z)
                        (event : EventLog) : bool :=
  let orderId := toString (Args.orderId (args event)) in
  let isExpired :=
    currentTimestamp >? Number (Args.timestamp (args event)) + ORDER_EXPIRY in
  negb (bool_decide (orderId ∈ filledOrderIds)) &&
  negb (bool_decide (orderId ∈ canceledOrderIds)) &&
  negb (bool_decide (orderId ∈ cleanedOrderIds)) &&
  negb (bool_decide (orderId ∈ retriedOrderIds)) &&
  negb isExpired.

(** [if (wanted) list = list.filter(o => field(o).toLowerCase() ===
    wanted.toLowerCase())] *)
Definition filter_by (field : Order.t -> string) (wanted : option string)
                     (activeOrders : list Order.t) : list Order.t :=
  if truthy wanted
  then
    let a := default "" wanted in
    List.filter
      (fun order => strict_eq (toLowerCase (field order)) (toLowerCase a))
      activeOrders
  else activeOrders.

Definition getActiveOrders (w : World) (c : t)
                           (params : GetActiveOrdersParams.t) : M ActiveOrders :=
  let fromBlock := default 0 (GetActiveOrdersParams.fromBlock params) in
  let toBlock := default latest (GetActiveOrdersParams.toBlock params) in
  let makerAddress := GetActiveOrdersParams.makerAddress params in
  let sellToken := GetActiveOrdersParams.sellToken params in
  let buyToken := GetActiveOrdersParams.buyToken params in
  try_rethrow "Failed to fetch active orders" (
    streams <-
      all2 (await w (CallQueryFilter "OrderCreated" fromBlock toBlock))
     (all2 (await w (CallQueryFilter "OrderFilled" fromBlock toBlock))
     (all2 (await w (CallQueryFilter "OrderCanceled" fromBlock toBlock))
     (all2 (await w (CallQueryFilter "OrderCleanedUp" fromBlock toBlock))
           (await w (CallQueryFilter "RetryOrder" fromBlock toBlock))))) ;;
    let '(createdEvents, (filledEvents, (canceledEvents,
           (cleanedEvents, retryEvents)))) := streams in
    let filledOrderIds := id_set Args.orderId filledEvents in
    let canceledOrderIds := id_set Args.orderId canceledEvents in
    let cleanedOrderIds := id_set Args.orderId cleanedEvents in
    let retriedOrderIds := id_set Args.oldOrderId retryEvents in
    let currentTimestamp := floor_seconds (Date_now w) in
    let ORDER_EXPIRY := SECONDS_7_DAYS in
    let activeOrders :=
      map toOrder
          (List.filter (keep_created filledOrderIds canceledOrderIds
                                     cleanedOrderIds retriedOrderIds
                                     currentTimestamp ORDER_EXPIRY)
                       createdEvents) in
    let activeOrders := filter_by Order.maker makerAddress activeOrders in
    let activeOrders :=
      filter_by (fun o => Token.token (Order.sell o)) sellToken activeOrders in
    let activeOrders :=
      filter_by (fun o => Token.token (Order.buy o)) buyToken activeOrders in
    ret {| orders := activeOrders;
           pagination := {| hasMore := false; nextOffset := 0 |} |}).

(** *** Reads that fall back *)


(** *** Expiry policy *)

Record ExpiryInfo : Type := mkExpiryInfo {
  orderExpiry : Z;
  gracePeriod : Z
}.

(** The constants returned when the ledger cannot be read. *)
Definition fallback : ExpiryInfo :=
  {| orderExpiry := SECONDS_7_DAYS; gracePeriod := SECONDS_7_DAYS |}.

Definition getOrderExpiryInfo (w : World) : M ExpiryInfo :=
  try_default (
    constants <- all2 (await w CallORDER_EXPIRY) (await w CallGRACE_PERIOD) ;;
    let '(orderExpiry, gracePeriod) := constants in
    ret {| orderExpiry := Number orderExpiry;
           gracePeriod := Number gracePeriod |})
    fallback.

Definition isOrderExpired (w : World) (timestamp : Z) : M bool :=
  info <- getOrderExpiryInfo w ;;
  ret (Qgtb (seconds (Date_now w)) (inject_Z (timestamp + orderExpiry info))).

Definition isInGracePeriod (w : World) (timestamp : Z) : M bool :=
  info <- getOrderExpiryInfo w ;;
  let now := seconds (Date_now w) in
  ret (Qgtb now (inject_Z (timestamp + orderExpiry info)) &&
       Qleb now (inject_Z (timestamp + orderExpiry info + gracePeriod info))).

(** *** Cleanup *)

Record CleanedOrder : Type := mkCleanedOrder {
  cleaned_orderId : N; cleaned_maker : string; cleaned_timestamp : Z
}.

Record CleanupFailure : Type := mkCleanupFailure {
  failure_orderId : N; failure_reason : string; failure_timestamp : Z
}.

Record Retry : Type := mkRetry {
  retry_oldOrderId : N; retry_newOrderId : N; retry_maker : string;
  retry_tries : Z; retry_timestamp : Z
}.

Record FeeDistribution : Type := mkFeeDistribution {
  fee_recipient : string; fee_amount : N; fee_timestamp : Z
}.

Record Cleanup : Type := mkCleanup {
  txHash : string;
  cleanedOrders : list CleanedOrder;
  errors : list CleanupFailure;
  retries : list Retry;
  feesDistributed : list FeeDistribution
}.

Definition cleanupExpiredOrders (w : World) (c : t) : M Cleanup :=
  require_signer c (fun _ =>
    try_rethrow "Failed to cleanup expired orders" (
      tx <- await w CallCleanupExpiredOrders ;;
      receipt <- await w (CallWait tx) ;;
      let cleanedEvents := filter_events "OrderCleanedUp" (logs receipt) in
      let cleanupErrorEvents := filter_events "CleanupError" (logs receipt) in
      let retryEvents := filter_events "RetryOrder" (logs receipt) in
      let feesDistributedEvents :=
        filter_events "CleanupFeesDistributed" (logs receipt) in
      ret {| txHash := hash receipt;
             cleanedOrders :=
               map (fun e => {| cleaned_orderId := Args.orderId (args e);
                                cleaned_maker := Args.maker (args e);
                                cleaned_timestamp := Number (Args.timestamp (args e)) |})
                   cleanedEvents;
             errors :=
               map (fun e => {| failure_orderId := Args.orderId (args e);
                                failure_reason := Args.reason (args e);
                                failure_timestamp := Number (Args.timestamp (args e)) |})
                   cleanupErrorEvents;
             retries :=
               map (fun e => {| retry_oldOrderId := Args.oldOrderId (args e);
                                retry_newOrderId := Args.newOrderId (args e);
                                retry_maker := Args.maker (args e);
                                retry_tries := Number (Args.tries (args e));
                                retry_timestamp := Number (Args.timestamp (args e)) |})
                   retryEvents;
             feesDistributed :=
               map (fun e => {| fee_recipient := Args.recipient (args e);
                                fee_amount := Args.amount (args e);
                                fee_timestamp := Number (Args.timestamp (args e)) |})
                   feesDistributedEvents |})).

End OTCClient.

Import OTCClient.

(** * Vocabulary of the statements *)

(** The same environment read at another instant. *)
Definition at_time (w : World) (ms : Z) : World :=
  {| respond := respond w; Date_now := ms |}.

(** The five event streams of the ledger over a block range. *)
Record Streams : Type := mkStreams {
  createdEvents : list EventLog;
  filledEvents : list EventLog;
  canceledEvents : list EventLog;
  cleanedEvents : list EventLog;
  retryEvents : list EventLog
}.

Definition queried_from (params : GetActiveOrdersParams.t) : Z :=
  default 0 (GetActiveOrdersParams.fromBlock params).

Definition queried_to (params : GetActiveOrdersParams.t) : BlockTag :=
  default latest (GetActiveOrdersParams.toBlock params).

(** The environment answers the five queries of [getActiveOrders] with
    the streams [s]. *)
Definition serves (w : World) (params : GetActiveOrdersParams.t) (s : Streams) : Prop :=
  let from := queried_from params in
  let to := queried_to params in
  respond w (CallQueryFilter "OrderCreated" from to) = Ok (createdEvents s) /\
  respond w (CallQueryFilter "OrderFilled" from to) = Ok (filledEvents s) /\
  respond w (CallQueryFilter "OrderCanceled" from to) = Ok (canceledEvents s) /\
  respond w (CallQueryFilter "OrderCleanedUp" from to) = Ok (cleanedEvents s) /\
  respond w (CallQueryFilter "RetryOrder" from to) = Ok (retryEvents s).

Definition queries (params : GetActiveOrdersParams.t) : Trace :=
  let from := queried_from params in
  let to := queried_to params in
  [ CallQueryFilter "OrderCreated" from to;
    CallQueryFilter "OrderFilled" from to;
    CallQueryFilter "OrderCanceled" from to;
    CallQueryFilter "OrderCleanedUp" from to;
    CallQueryFilter "RetryOrder" from to ].

(** The identifiers a stream mentions. *)
Definition identifiers (key : Args.t -> N) (events : list EventLog) : list N :=
  map (fun e => key (args e)) events.

(** No terminal event names the identifier. *)
Definition no_terminal_event (s : Streams) (id : N) : Prop :=
  ~ In id (identifiers Args.orderId (filledEvents s)) /\
  ~ In id (identifiers Args.orderId (canceledEvents s)) /\
  ~ In id (identifiers Args.orderId (cleanedEvents s)) /\
  ~ In id (identifiers Args.oldOrderId (retryEvents s)).

(** The activity condition of the specification at second [now], for the
    seven-day order lifetime. *)
Definition active_at (s : Streams) (now : Z) (e : EventLog) : Prop :=
  no_terminal_event s (Args.orderId (args e)) /\
  now <= Number (Args.timestamp (args e)) + SECONDS_7_DAYS.

(** An optional filter value accepts an address: an absent or empty
    filter accepts all, another one accepts what equals it up to
    letter case. *)
Definition accepts (wanted : option string) (actual : string) : Prop :=
  match wanted with
  | None => True
  | Some a => a = "" \/ toLowerCase actual = toLowerCase a
  end.

Definition passes (params : GetActiveOrdersParams.t) (e : EventLog) : Prop :=
  accepts (GetActiveOrdersParams.makerAddress params) (Args.maker (args e)) /\
  accepts (GetActiveOrdersParams.sellToken params) (Args.sellToken (args e)) /\
  accepts (GetActiveOrdersParams.buyToken params) (Args.buyToken (args e)).

(** A filter value that is absent, or equals the recorded address up to
    letter case. *)
Definition up_to_case (wanted : option string) (recorded : string) : Prop :=
  match wanted with
  | None => True
  | Some a => toLowerCase a = toLowerCase recorded
  end.


(** The parameters of [createOrder] break a validation rule. *)
Definition invalid (p : OrderParams.t) : Prop :=
  OrderParams.sellToken p = OrderParams.buyToken p \/
  OrderParams.sellToken p = ZeroAddress \/
  OrderParams.buyToken p = ZeroAddress \/
  OrderParams.sellAmount p <= 0 \/
  OrderParams.buyAmount p <= 0.

(** The constants [getOrderExpiryInfo] resolves to: the ledger's, or the
    fallback when one of the two reads fails. *)
Definition resolved (w : World) : ExpiryInfo :=
  match respond w CallORDER_EXPIRY, respond w CallGRACE_PERIOD with
  | Ok e, Ok g => {| orderExpiry := Number e; gracePeriod := Number g |}
  | _, _ => fallback
  end.

(** What [getActiveOrders] makes of the streams at second [now]. *)
Definition projection (s : Streams) (now : Z)
                      (params : GetActiveOrdersParams.t) : list Order.t :=
  filter_by (fun o => Token.token (Order.buy o)) (GetActiveOrdersParams.buyToken params)
    (filter_by (fun o => Token.token (Order.sell o)) (GetActiveOrdersParams.sellToken params)
       (filter_by Order.maker (GetActiveOrdersParams.makerAddress params)
          (map toOrder
             (List.filter
                (keep_created (id_set Args.orderId (filledEvents s))
                              (id_set Args.orderId (canceledEvents s))
                              (id_set Args.orderId (cleanedEvents s))
                              (id_set Args.oldOrderId (retryEvents s))
                              now SECONDS_7_DAYS)
                (createdEvents s))))).

(** The rule an error message names, and that the parameters break it. *)
Inductive violates (p : OrderParams.t) : string -> Prop :=
| zero_sell_token :
    OrderParams.sellToken p = ZeroAddress -> violates p "Invalid sell token"
| zero_buy_token :
    OrderParams.buyToken p = ZeroAddress -> violates p "Invalid buy token"
| same_token :
    OrderParams.sellToken p = OrderParams.buyToken p ->
    violates p "Cannot swap same token"
| sell_amount :
    OrderParams.sellAmount p <= 0 -> violates p "Invalid sell amount"
| buy_amount :
    OrderParams.buyAmount p <= 0 -> violates p "Invalid buy amount".

(** The number of records of one kind in a confirmation. *)
Fixpoint count_records (kind : string) (ls : list EventLog) : nat :=
  match ls with
  | [] => 0%nat
  | l :: ls' =>
      ((if decide (fragment l = Some kind) then 1 else 0) + count_records kind ls')%nat
  end.




(** Two values of an optional filter that select the same orders. *)
Definition same_filter (x y : option string) : Prop :=
  match x, y with
  | None, None => True
  | Some a, Some b => toLowerCase a = toLowerCase b
  | Some a, None => a = ""
  | None, Some b => b = ""
  end.

(** What [fillOrder] has checked when it spends: the order exists, is
    active and has a Number timestamp not more than seven days old, the
    caller is the designated taker if there is one, and holds the buy
    amount. *)
Definition fillable (w : World) (c : OTCClient.t) (params : FillOrderParams.t) : Prop :=
  exists (s : Signer) (order : LedgerOrder.t) (ts : Z) (caller : string) (balance : N),
    signer c = Some s /\
    respond w (CallOrders (FillOrderParams.orderId params)) = Ok (Some order) /\
    LedgerOrder.isActive order = true /\
    LedgerOrder.timestamp order = JNumber ts /\
    floor_seconds (Date_now w) <= ts + SECONDS_7_DAYS /\
    respond w (CallGetAddress s) = Ok caller /\
    (LedgerOrder.taker order = ZeroAddress \/ LedgerOrder.taker order = caller) /\
    respond w (CallBalanceOf (FillOrderParams.buyToken params) caller) = Ok balance /\
    FillOrderParams.buyAmount params <= Z.of_N balance.

(** What [cancelOrder] has checked when it submits: the order exists,
    the caller is its maker, and its BigInt timestamp is not more than
    fourteen days old. *)
Definition cancelable (w : World) (c : OTCClient.t) (orderId : Z) : Prop :=
  exists (s : Signer) (order : LedgerOrder.t) (ts : Z),
    signer c = Some s /\
    respond w (CallOrders orderId) = Ok (Some order) /\
    respond w (CallGetAddress s) = Ok (LedgerOrder.maker order) /\
    LedgerOrder.timestamp order = JBigInt ts /\
    floor_seconds (Date_now w) <= ts + SECONDS_14_DAYS.

(** ** Sample inputs *)

Module Sample.

Definition ALICE : string := "0xAbCdEf0000000000000000000000000000000001".
Definition alice : string := "0xabcdef0000000000000000000000000000000001".
Definition BOB : string := "0x00000000000000000000000000000000000000B0".
Definition TOKEN_A : string := "0x00000000000000000000000000000000000000A1".
Definition TOKEN_B : string := "0x00000000000000000000000000000000000000b2".
Definition LEDGER : string := "0x0000000000000000000000000000000000000C0C".

Definition no_args : Args.t :=
  Args.mk 0 "" "" "" 0 "" 0 0 0 0 0 0 "" "" 0.

(** [OrderCreated(orderId, maker, taker, A, 100, B, 50, timestamp, fee 3)] *)
Definition created (id : N) (maker taker : string) (timestamp : N) : EventLog :=
  mkLog (Some "OrderCreated")
        (Args.mk id maker taker TOKEN_A 100 TOKEN_B 50 timestamp 3 0 0 0 "" "" 0)
        1.

(** A record of [kind] about the order [id], at ledger time [timestamp]. *)
Definition record (kind : string) (id : N) (timestamp : N) : EventLog :=
  mkLog (Some kind)
        (Args.mk id ALICE "" "" 0 "" 0 timestamp 0 id (id + 1) 1 "transfer failed" BOB 3)
        2.

Definition order42 : EventLog := created 42 ALICE ZeroAddress 1000.
Definition order43 : EventLog := created 43 BOB ZeroAddress 2000.

Definition streams : Streams :=
  {| createdEvents := [order42; order43];
     filledEvents := [];
     canceledEvents := [];
     cleanedEvents := [];
     retryEvents := [] |}.

Definition streams_filled : Streams :=
  {| createdEvents := [order42; order43];
     filledEvents := [record "OrderFilled" 42 1500];
     canceledEvents := [];
     cleanedEvents := [];
     retryEvents := [] |}.

(** Two creations that differ only in their identifiers, 2^53 and
    2^53 + 1, the first of them filled. *)
Definition order_2_53 : EventLog := created 9007199254740992 ALICE ZeroAddress 1000.
Definition order_2_53_1 : EventLog := created 9007199254740993 ALICE ZeroAddress 1000.

Definition streams_unsafe : Streams :=
  {| createdEvents := [order_2_53; order_2_53_1];
     filledEvents := [record "OrderFilled" 9007199254740992 1500];
     canceledEvents := [];
     cleanedEvents := [];
     retryEvents := [] |}.

Definition cleanup_receipt : Receipt :=
  {| hash := "0xc1ea";
     blockNumber := 9;
     logs := [ record "OrderCleanedUp" 1 10;
               record "CleanupError" 2 10;
               mkLog None no_args 9;
               record "OrderCleanedUp" 3 10 ] |}.

Definition cancel_receipt : Receipt :=
  {| hash := "0xca9c"; blockNumber := 8; logs := [record "OrderCanceled" 42 1700] |}.

Definition network_error {A} : Result A := Raised (JsError "network error").

(** An environment: a ledger with the streams [s]; order 42 made by
    [ALICE] for the taker [BOB], with the timestamp as ethers decodes
    it; order 44 the same with a [Number] timestamp; a signer's handle
    is its address; the ledger reports a one-day grace period. *)
Definition world (s : Streams) (ms : Z) : World :=
  {| respond := fun c =>
       match c as c' return Result (answer c') with
       | CallOrderCreationFee => Ok 3%N
       | CallOrders orderId =>
           if orderId =? 42 then
             Ok (Some (LedgerOrder.mk ALICE BOB (JBigInt 1000) true))
           else if orderId =? 44 then
             Ok (Some (LedgerOrder.mk ALICE BOB (JNumber 1000) true))
           else Ok None
       | CallGetAddress a => Ok a
       | CallBalanceOf _ _ => Ok 1000%N
       | CallApprove _ _ _ => Ok 1%N
       | CallCreateOrder _ _ _ _ _ _ => Ok 2%N
       | CallFillOrder _ => Ok 3%N
       | CallCancelOrder _ => Ok 4%N
       | CallCleanupExpiredOrders => Ok 5%N
       | CallWait tx =>
           if (tx =? 5)%N then Ok cleanup_receipt
           else if (tx =? 4)%N then Ok cancel_receipt
           else Ok (mkReceipt "0x00" 7 [])
       | CallQueryFilter event _ _ =>
           if String.eqb event "OrderCreated" then Ok (createdEvents s)
           else if String.eqb event "OrderFilled" then Ok (filledEvents s)
           else if String.eqb event "OrderCanceled" then Ok (canceledEvents s)
           else if String.eqb event "OrderCleanedUp" then Ok (cleanedEvents s)
           else if String.eqb event "RetryOrder" then Ok (retryEvents s)
           else network_error
       | CallORDER_EXPIRY => Ok 604800%N
       | CallGRACE_PERIOD => Ok 86400%N
       end;
     Date_now := ms |}.

(** A ledger that reports no grace period, and nothing else. *)
Definition no_grace : World :=
  {| respond := fun c =>
       match c as c' return Result (answer c') with
       | CallORDER_EXPIRY => Ok 604800%N
       | CallGRACE_PERIOD => Ok 0%N
       | _ => network_error
       end;
     Date_now := 0 |}.


Definition client (s : Signer) : OTCClient.t :=
  {| signer := Some s; target := LEDGER |}.

Definition by_maker (a : string) : GetActiveOrdersParams.t :=
  GetActiveOrdersParams.mk None None (Some a) None None.

Definition same_token : OrderParams.t :=
  OrderParams.mk None TOKEN_A 100 TOKEN_A 50.

Definition swap : OrderParams.t :=
  OrderParams.mk None TOKEN_A 100 TOKEN_B 50.

Definition disconnected : OTCClient.t :=
  {| signer := None; target := LEDGER |}.

Definition creation_receipt : Receipt :=
  {| hash := "0xc4ea";
     blockNumber := 6;
     logs := [ mkLog None no_args 6;
               created 7 ALICE ZeroAddress 1600;
               created 8 ALICE ZeroAddress 1600 ] |}.

(** A ledger on which a creation is confirmed with [creation_receipt]. *)
Definition creating : World :=
  {| respond := fun c =>
       match c as c' return Result (answer c') with
       | CallOrderCreationFee => Ok 3%N
       | CallApprove _ _ _ => Ok 1%N
       | CallCreateOrder _ _ _ _ _ _ => Ok 2%N
       | CallWait tx =>
           if (tx =? 2)%N then Ok creation_receipt else Ok (mkReceipt "0x00" 5 [])
       | _ => network_error
       end;
     Date_now := 1600000 |}.

End Sample.

(** * Properties *)

(** ** Numbers and strings *)

Lemma Qgtb_lt (x y : Q) : Qgtb x y = true <-> (y < x)%Q.
Proof.
  unfold Qgtb. rewrite negb_true_iff, <- not_true_iff_false, Qle_bool_iff.
  split; [apply Qnot_le_lt | apply Qlt_not_le].
Qed.

Lemma Qleb_le (x y : Q) : Qleb x y = true <-> (x <= y)%Q.
Proof. apply Qle_bool_iff. Qed.

Lemma Qgtb_seconds (ms k : Z) :
  Qgtb (seconds ms) (inject_Z k) = (ms >? 1000 * k).
Proof.
  unfold Qgtb, seconds, Qle_bool, inject_Z; simpl.
  rewrite Z.gtb_ltb, Z.ltb_antisym. f_equal.
  apply eq_true_iff_eq. rewrite !Z.leb_le. lia.
Qed.

Lemma Qleb_seconds (ms k : Z) :
  Qleb (seconds ms) (inject_Z k) = (ms <=? 1000 * k).
Proof.
  unfold Qleb, seconds, Qle_bool, inject_Z; simpl.
  apply eq_true_iff_eq. rewrite !Z.leb_le. lia.
Qed.

Lemma floor_seconds_div (ms : Z) : floor_seconds ms = ms / 1000.
Proof. reflexivity. Qed.

(** [Number] is exact on the safe integers, and maps no other integer
    among them. *)
Lemma Number_exact (n : N) : (n < 2 ^ 53)%N -> Number n = Z.of_N n.
Proof.
  intros H. unfold Number, round_to_double.
  now rewrite (proj2 (N.ltb_lt _ _) H).
Qed.

Lemma round_to_double_large (n : N) :
  (2 ^ 53 <= n)%N -> (2 ^ 53 <= round_to_double n)%N.
Proof.
  intros H. unfold round_to_double.
  rewrite (proj2 (N.ltb_ge _ _) H). cbv zeta.
  assert (Hpos : (0 < n)%N) by (apply N.lt_le_trans with (2 ^ 53)%N; [reflexivity | exact H]).
  destruct (N.log2_spec n Hpos) as [Hlo _].
  assert (HL : (53 <= N.log2 n)%N).
  { rewrite <- (N.log2_pow2 53) by discriminate. now apply N.log2_le_mono. }
  set (L := N.log2 n) in *. set (k := (L - 52)%N).
  assert (HLk : L = (52 + k)%N) by (unfold k; lia).
  assert (Hk : (2 ^ k <> 0)%N) by (apply N.pow_nonzero; discriminate).
  assert (Hq : (2 ^ 52 <= n / 2 ^ k)%N).
  { apply N.div_le_lower_bound; [exact Hk |].
    rewrite N.mul_comm, <- N.pow_add_r, <- HLk. exact Hlo. }
  assert (Hq' : (n / 2 ^ k
                 <= (if (n mod 2 ^ k <? 2 ^ (k - 1))%N then n / 2 ^ k
                     else if (2 ^ (k - 1) <? n mod 2 ^ k)%N then n / 2 ^ k + 1
                     else if N.even (n / 2 ^ k) then n / 2 ^ k else n / 2 ^ k + 1))%N).
  { destruct (_ <? _)%N; [lia |]. destruct (_ <? _)%N; [lia |].
    destruct (N.even _); lia. }
  assert (Hpow : (2 ^ 53 <= 2 ^ 52 * 2 ^ k)%N).
  { rewrite <- N.pow_add_r, <- HLk. apply N.pow_le_mono_r; [discriminate | exact HL]. }
  etransitivity; [exact Hpow |].
  apply N.mul_le_mono_r. etransitivity; [exact Hq | exact Hq'].
Qed.

Lemma Number_rounds :
  Number 9007199254740991 = 9007199254740991 /\
  Number 9007199254740993 = 9007199254740992 /\
  Number 9007199254740995 = 9007199254740996 /\
  Number 9007199254740994 = 9007199254740994.
Proof. repeat split. Qed.

Lemma Number_inj_safe (a b : N) :
  (a < 2 ^ 53)%N -> Number a = Number b -> a = b.
Proof.
  intros Ha H. destruct (N.lt_ge_cases b (2 ^ 53)) as [Hb | Hb].
  - rewrite !Number_exact in H by assumption. lia.
  - apply round_to_double_large in Hb. rewrite (Number_exact a Ha) in H.
    unfold Number in H. lia.
Qed.

(** Distinct ledger integers print differently, so a set of printed
    identifiers is as good as a set of identifiers. *)
Lemma toString_inj (a b : N) : toString a = toString b -> a = b.
Proof.
  unfold toString. intros H.
  apply DecimalN.Unsigned.to_uint_inj.
  apply (f_equal NilEmpty.uint_of_string) in H.
  rewrite !NilEmpty.usu in H. congruence.
Qed.

Lemma strict_eq_true (a b : string) : strict_eq a b = true <-> a = b.
Proof. apply String.eqb_eq. Qed.

Lemma strict_ne_true (a b : string) : strict_ne a b = true <-> a <> b.
Proof.
  unfold strict_ne. rewrite negb_true_iff. apply String.eqb_neq.
Qed.

Lemma strict_ne_false (a b : string) : strict_ne a b = false <-> a = b.
Proof.
  unfold strict_ne. rewrite negb_false_iff. apply String.eqb_eq.
Qed.

(** ** Running a computation *)

Lemma await_ok (w : World) (c : Call) (v : answer c) {B} (k : answer c -> M B) tr :
  respond w c = Ok v -> bind (await w c) k tr = k v (tr ++ [c]).
Proof. intros H. unfold bind, await. now rewrite H. Qed.

Lemma require_signer_connected {A} (c : OTCClient.t) (s : Signer) (k : Signer -> M A) :
  signer c = Some s -> require_signer c k = k s.
Proof. intros H. unfold require_signer. now rewrite H. Qed.

(** ** Expiry policy *)

Section ExpiryPolicy.

Variable w : World.
Variable tr : Trace.

Lemma getOrderExpiryInfo_run (ms : Z) :
  getOrderExpiryInfo (at_time w ms) tr
  = (tr ++ [CallORDER_EXPIRY] ++ [CallGRACE_PERIOD], Ok (resolved w)).
Proof.
  unfold getOrderExpiryInfo, try_default, bind, all2, await, resolved; simpl.
  rewrite <- app_assoc.
  destruct (respond w CallORDER_EXPIRY), (respond w CallGRACE_PERIOD);
    reflexivity.
Qed.

Lemma resolved_nonneg : 0 <= orderExpiry (resolved w) /\ 0 <= gracePeriod (resolved w).
Proof.
  unfold resolved.
  destruct (respond w CallORDER_EXPIRY), (respond w CallGRACE_PERIOD);
    simpl; unfold Number, SECONDS_7_DAYS; lia.
Qed.

Lemma isOrderExpired_run (ms timestamp : Z) :
  isOrderExpired (at_time w ms) timestamp tr
  = (tr ++ [CallORDER_EXPIRY] ++ [CallGRACE_PERIOD],
     Ok (ms >? 1000 * (timestamp + orderExpiry (resolved w)))).
Proof.
  unfold isOrderExpired, bind. rewrite getOrderExpiryInfo_run.
  unfold ret; simpl. now rewrite Qgtb_seconds.
Qed.

Lemma isInGracePeriod_run (ms timestamp : Z) :
  isInGracePeriod (at_time w ms) timestamp tr
  = (tr ++ [CallORDER_EXPIRY] ++ [CallGRACE_PERIOD],
     Ok ((ms >? 1000 * (timestamp + orderExpiry (resolved w))) &&
         (ms <=? 1000 * (timestamp + orderExpiry (resolved w) + gracePeriod (resolved w))))).
Proof.
  unfold isInGracePeriod, bind. rewrite getOrderExpiryInfo_run.
  unfold ret; simpl. now rewrite Qgtb_seconds, Qleb_seconds.
Qed.

(** C4. Whatever the ledger answers, [isOrderExpired] resolves, and to
    [now > timestamp + orderLifetime], where [now] is the clock in
    (fractional) seconds and [orderLifetime] the lifetime
    [getOrderExpiryInfo] resolves to.  In particular it is false at
    [now = t] and at [now = t + lifetime], and true at
    [now = t + lifetime + 1]. *)
Theorem isOrderExpired_boundaries (t : Z) :
  exists info : ExpiryInfo,
    let lifetime := orderExpiry info in
    (forall ms, snd (getOrderExpiryInfo (at_time w ms) tr) = Ok info) /\
    (forall ms, exists b : bool,
        snd (isOrderExpired (at_time w ms) t tr) = Ok b /\
        (b = true <-> (inject_Z (t + lifetime) < seconds ms)%Q)) /\
    snd (isOrderExpired (at_time w (1000 * t)) t tr) = Ok false /\
    snd (isOrderExpired (at_time w (1000 * (t + lifetime))) t tr) = Ok false /\
    snd (isOrderExpired (at_time w (1000 * (t + lifetime + 1))) t tr) = Ok true.
Proof.
  exists (resolved w). cbv zeta.
  destruct resolved_nonneg as [Hl _].
  split; [intros ms; now rewrite getOrderExpiryInfo_run |].
  split.
  { intros ms. eexists. rewrite isOrderExpired_run. split; [reflexivity |].
    now rewrite <- Qgtb_seconds, Qgtb_lt. }
  rewrite !isOrderExpired_run; simpl.
  repeat split; f_equal; rewrite Z.gtb_ltb;
    [apply Z.ltb_ge | apply Z.ltb_ge | apply Z.ltb_lt]; lia.
Qed.

(** C5 (amended). [isInGracePeriod] resolves to true exactly when
    [now] is strictly after [t + lifetime] and at most
    [t + lifetime + grace], for the constants [getOrderExpiryInfo]
    resolves to.  In particular it is false at [now = t + lifetime] and
    at [now = t + lifetime + grace + 1]; and when the grace period is
    at least one second it is true at [now = t + lifetime + 1] and at
    [now = t + lifetime + grace]. *)
Theorem isInGracePeriod_boundaries (t : Z) :
  exists info : ExpiryInfo,
    let lifetime := orderExpiry info in
    let grace := gracePeriod info in
    (forall ms, snd (getOrderExpiryInfo (at_time w ms) tr) = Ok info) /\
    (forall ms, exists b : bool,
        snd (isInGracePeriod (at_time w ms) t tr) = Ok b /\
        (b = true <->
           (inject_Z (t + lifetime) < seconds ms)%Q /\
           (seconds ms <= inject_Z (t + lifetime + grace))%Q)) /\
    snd (isInGracePeriod (at_time w (1000 * (t + lifetime))) t tr) = Ok false /\
    (1 <= grace ->
     snd (isInGracePeriod (at_time w (1000 * (t + lifetime + 1))) t tr) = Ok true /\
     snd (isInGracePeriod (at_time w (1000 * (t + lifetime + grace))) t tr) = Ok true) /\
    snd (isInGracePeriod (at_time w (1000 * (t + lifetime + grace + 1))) t tr)
      = Ok false.
Proof.
  exists (resolved w). cbv zeta.
  destruct resolved_nonneg as [Hl Hg].
  split; [intros ms; now rewrite getOrderExpiryInfo_run |].
  split.
  { intros ms. eexists. rewrite isInGracePeriod_run. split; [reflexivity |].
    now rewrite andb_true_iff, <- Qgtb_seconds, <- Qleb_seconds, Qgtb_lt, Qleb_le. }
  rewrite !isInGracePeriod_run; simpl.
  split; [| split; [intros H1; split | ]]; f_equal.
  - apply andb_false_iff; left. rewrite Z.gtb_ltb. apply Z.ltb_ge. lia.
  - apply andb_true_iff; split;
      [rewrite Z.gtb_ltb; apply Z.ltb_lt | apply Z.leb_le]; lia.
  - apply andb_true_iff; split;
      [rewrite Z.gtb_ltb; apply Z.ltb_lt | apply Z.leb_le]; lia.
  - apply andb_false_iff; right. apply Z.leb_gt. lia.
Qed.

End ExpiryPolicy.

(** ** Active orders *)

Section ActiveOrders.

Variable w : World.
Variable c : OTCClient.t.
Variable params : GetActiveOrdersParams.t.
Variable tr : Trace.

Lemma getActiveOrders_run (s : Streams) :
  serves w params s ->
  getActiveOrders w c params tr
  = (tr ++ queries params,
     Ok {| orders := projection s (floor_seconds (Date_now w)) params;
           pagination := {| hasMore := false; nextOffset := 0 |} |}).
Proof.
  intros (Hc & Hf & Hx & Hl & Hr).
  unfold getActiveOrders, try_rethrow, bind, all2, await.
  fold (queried_from params) (queried_to params).
  rewrite Hc, Hf, Hx, Hl, Hr. unfold ret, queries.
  rewrite <- !app_assoc. reflexivity.
Qed.

(** Either the five queries are answered, or one of them rejects and so
    does [getActiveOrders]. *)
Lemma getActiveOrders_outcome :
  (exists s, serves w params s) \/
  (exists t, snd (getActiveOrders w c params tr) = Raised t).
Proof.
  unfold serves, getActiveOrders, try_rethrow, bind, all2, await.
  fold (queried_from params) (queried_to params).
  destruct (respond w (CallQueryFilter "OrderCreated" _ _)) as [cs|t1];
  destruct (respond w (CallQueryFilter "OrderFilled" _ _)) as [fs|t2];
  destruct (respond w (CallQueryFilter "OrderCanceled" _ _)) as [xs|t3];
  destruct (respond w (CallQueryFilter "OrderCleanedUp" _ _)) as [ls|t4];
  destruct (respond w (CallQueryFilter "RetryOrder" _ _)) as [rs|t5];
  try (right; eexists; reflexivity).
  left. exists (mkStreams cs fs xs ls rs). repeat split.
Qed.

End ActiveOrders.

Lemma id_set_spec (key : Args.t -> N) (events : list EventLog) (id : N) :
  bool_decide (toString id ∈ id_set key events) = true
  <-> In id (identifiers key events).
Proof.
  unfold id_set, identifiers.
  rewrite bool_decide_eq_true, elem_of_list_to_set, list_elem_of_In, !in_map_iff.
  split; intros (e & He & Hin); exists e; split; auto.
  - now apply toString_inj.
  - now f_equal.
Qed.

Lemma keep_created_spec (s : Streams) (now : Z) (e : EventLog) :
  keep_created (id_set Args.orderId (filledEvents s))
               (id_set Args.orderId (canceledEvents s))
               (id_set Args.orderId (cleanedEvents s))
               (id_set Args.oldOrderId (retryEvents s))
               now SECONDS_7_DAYS e = true
  <-> active_at s now e.
Proof.
  unfold keep_created, active_at, no_terminal_event.
  rewrite !andb_true_iff, !negb_true_iff, <- !not_true_iff_false, !id_set_spec.
  rewrite Z.gtb_ltb, Z.ltb_lt. intuition lia.
Qed.

Lemma truthy_accepts (wanted : option string) (actual : string) :
  (truthy wanted = true ->
   strict_eq (toLowerCase actual) (toLowerCase (default "" wanted)) = true)
  <-> accepts wanted actual.
Proof.
  destruct wanted as [a|]; simpl; [| intuition discriminate].
  rewrite strict_eq_true, negb_true_iff.
  destruct (String.eqb_spec a ""); intuition congruence.
Qed.

Lemma In_filter_by (field : Order.t -> string) (wanted : option string)
                   (l : list Order.t) (o : Order.t) :
  In o (filter_by field wanted l) <-> In o l /\ accepts wanted (field o).
Proof.
  rewrite <- truthy_accepts. unfold filter_by.
  destruct (truthy wanted); [rewrite filter_In | ]; intuition congruence.
Qed.

(** The orders of the projection are the images of the creation events
    that are active and pass the optional filters. *)
Lemma In_projection (s : Streams) (now : Z) (params : GetActiveOrdersParams.t)
                    (o : Order.t) :
  In o (projection s now params)
  <-> exists e, In e (createdEvents s) /\ toOrder e = o /\
                active_at s now e /\ passes params e.
Proof.
  unfold projection. rewrite !In_filter_by, in_map_iff. unfold passes.
  split.
  - intros ((((e & <- & Hin) & Hm) & Hs) & Hb).
    apply filter_In in Hin as [Hin Hk]. apply keep_created_spec in Hk.
    exists e. simpl in *. tauto.
  - intros (e & Hin & <- & Ha & Hm & Hs & Hb). simpl.
    repeat split; auto. exists e. split; [reflexivity |].
    apply filter_In. split; [assumption |]. now apply keep_created_spec.
Qed.

(** Activity and the filters look at a creation event only through the
    order it is mapped to, when its identifier is a safe integer. *)
Lemma toOrder_determines (s : Streams) (now : Z) (params : GetActiveOrdersParams.t)
                         (e e' : EventLog) :
  (Args.orderId (args e) < 2 ^ 53)%N ->
  toOrder e' = toOrder e ->
  (active_at s now e' -> active_at s now e) /\
  (passes params e' -> passes params e).
Proof.
  unfold toOrder, active_at, passes. intros Hsafe H.
  injection H as Hid Hm _ Hst _ Hbt _ Hts _.
  symmetry in Hid. apply (Number_inj_safe _ _ Hsafe) in Hid.
  now rewrite <- Hid, Hm, Hst, Hbt, Hts.
Qed.

Lemma filter_map_toOrder (f : Order.t -> bool) (l : list EventLog) :
  List.filter f (map toOrder l) = map toOrder (List.filter (fun e => f (toOrder e)) l).
Proof.
  induction l as [|e l IH]; [reflexivity |]. simpl.
  destruct (f (toOrder e)); simpl; now rewrite IH.
Qed.

(** A filter over orders built from events keeps the orders of the
    events it accepts. *)
Lemma filter_by_events (field : Order.t -> string) (wanted : option string)
                       (kept : list EventLog) :
  exists kept' : list EventLog,
    filter_by field wanted (map toOrder kept) = map toOrder kept' /\
    forall e, In e kept' <-> In e kept /\ accepts wanted (field (toOrder e)).
Proof.
  unfold filter_by. destruct (truthy wanted) eqn:Ht.
  - eexists. split; [apply filter_map_toOrder |].
    intros e. rewrite filter_In, <- truthy_accepts, Ht. tauto.
  - exists kept. split; [reflexivity |].
    intros e. rewrite <- truthy_accepts, Ht. intuition discriminate.
Qed.

(** The projection is the image of the creation events that are active
    and pass the filters, whatever their identifiers. *)
Lemma projection_events (s : Streams) (now : Z) (params : GetActiveOrdersParams.t) :
  exists kept : list EventLog,
    projection s now params = map toOrder kept /\
    forall e, In e kept
              <-> In e (createdEvents s) /\ active_at s now e /\ passes params e.
Proof.
  unfold projection.
  destruct (filter_by_events Order.maker (GetActiveOrdersParams.makerAddress params)
              (List.filter
                 (keep_created (id_set Args.orderId (filledEvents s))
                               (id_set Args.orderId (canceledEvents s))
                               (id_set Args.orderId (cleanedEvents s))
                               (id_set Args.oldOrderId (retryEvents s))
                               now SECONDS_7_DAYS)
                 (createdEvents s))) as (k1 & -> & H1).
  destruct (filter_by_events (fun o => Token.token (Order.sell o))
              (GetActiveOrdersParams.sellToken params) k1) as (k2 & -> & H2).
  destruct (filter_by_events (fun o => Token.token (Order.buy o))
              (GetActiveOrdersParams.buyToken params) k2) as (k3 & -> & H3).
  exists k3. split; [reflexivity |].
  intros e. rewrite H3, H2, H1, filter_In, keep_created_spec.
  unfold passes. simpl. tauto.
Qed.




Section Membership.

Variable w : World.
Variable c : OTCClient.t.
Variable params : GetActiveOrdersParams.t.
Variable tr : Trace.

(** C1 (amended). When the five queries are answered, [getActiveOrders]
    resolves to the orders built from exactly those events of the
    creation stream whose identifier is in none of the fill, cancellation
    and cleanup identifier sets nor among the old identifiers of the
    retry stream, for which [now <= createdAt + 7 days], and which pass
    the optional maker / sell-token / buy-token filters.  For a creation
    event whose identifier is a safe integer (below 2^53, where
    [Number(orderId)] is exact) this is the membership of its order in
    the result; and without filter the condition is the activity
    condition alone. *)
Theorem getActiveOrders_membership (s : Streams) :
  serves w params s ->
  exists res : ActiveOrders,
    getActiveOrders w c params tr = (tr ++ queries params, Ok res) /\
    (exists kept : list EventLog,
       orders res = map toOrder kept /\
       forall e, In e kept
                 <-> In e (createdEvents s) /\
                     active_at s (floor_seconds (Date_now w)) e /\
                     passes params e) /\
    (forall e, In e (createdEvents s) ->
       (Args.orderId (args e) < 2 ^ 53)%N ->
       (In (toOrder e) (orders res)
        <-> active_at s (floor_seconds (Date_now w)) e /\ passes params e)) /\
    (GetActiveOrdersParams.makerAddress params = None ->
     GetActiveOrdersParams.sellToken params = None ->
     GetActiveOrdersParams.buyToken params = None ->
     forall e, In e (createdEvents s) ->
       (Args.orderId (args e) < 2 ^ 53)%N ->
       (In (toOrder e) (orders res)
        <-> active_at s (floor_seconds (Date_now w)) e)).
Proof.
  intros Hs. eexists. split; [apply (getActiveOrders_run w c params tr s Hs) |]. simpl.
  split; [apply projection_events |].
  assert (Hiff : forall e, In e (createdEvents s) ->
            (Args.orderId (args e) < 2 ^ 53)%N ->
            (In (toOrder e) (projection s (floor_seconds (Date_now w)) params)
             <-> active_at s (floor_seconds (Date_now w)) e /\ passes params e)).
  { intros e Hin Hsafe. rewrite In_projection. split.
    - intros (e' & _ & Heq & Ha & Hp).
      destruct (toOrder_determines s (floor_seconds (Date_now w)) params e e'
                  Hsafe Heq).
      auto.
    - intros [Ha Hp]. exists e. auto. }
  split; [exact Hiff |].
  intros Hm Hst Hbt e Hin Hsafe. rewrite (Hiff e Hin Hsafe).
  unfold passes. rewrite Hm, Hst, Hbt. simpl. tauto.
Qed.

(** C10. Whenever [getActiveOrders] resolves, every order of the list
    carries [isActive = true]; it rejects only when one of the five
    queries is not answered. *)
Theorem returned_orders_flagged_active :
  match snd (getActiveOrders w c params tr) with
  | Ok res => Forall (fun o => Order.isActive o = true) (orders res)
  | Raised _ => ~ exists s, serves w params s
  end.
Proof.
  destruct (getActiveOrders_outcome w c params tr) as [[s Hs] | [t Ht]].
  - rewrite (getActiveOrders_run w c params tr s Hs). simpl.
    apply Forall_forall. intros o Hin%list_elem_of_In.
    apply In_projection in Hin as (e & _ & <- & _). reflexivity.
  - rewrite Ht. intros [s Hs].
    rewrite (getActiveOrders_run w c params tr s Hs) in Ht. discriminate.
Qed.


End Membership.

(** ** Transactions *)

Lemma fst_try_rethrow {A} (context : string) (m : M A) (tr : Trace) :
  fst (try_rethrow context m tr) = fst (m tr).
Proof. unfold try_rethrow. now destruct (m tr) as [tr' []]. Qed.

Lemma has_name_spec (name : string) (l : EventLog) :
  has_name name l = true <-> fragment l = Some name.
Proof.
  unfold has_name. destruct (fragment l) as [n|]; [| intuition discriminate].
  rewrite strict_eq_true. intuition congruence.
Qed.

Lemma length_filter_events (name : string) (ls : list EventLog) :
  length (filter_events name ls) = count_records name ls.
Proof.
  induction ls as [|l ls IH]; [reflexivity |]. unfold filter_events in *. simpl.
  destruct (has_name name l) eqn:E; destruct (decide (fragment l = Some name)) as [Hd|Hd];
    simpl; rewrite IH; try reflexivity.
  - apply has_name_spec in E. contradiction.
  - apply has_name_spec in Hd. congruence.
Qed.

Section Transactions.

Variable w : World.
Variable c : OTCClient.t.
Variable s : Signer.
Variable tr : Trace.
Hypothesis connected : signer c = Some s.

(** [fillOrder] adds a Number to [order.timestamp] and [cancelOrder] a
    BigInt: whatever numeric type the ledger binding gives the timestamp,
    one of the two sums throws. *)
Lemma timestamp_sum_clash (timestamp : Js.Num) :
  Js.add timestamp (JNumber SECONDS_7_DAYS) = Raised TypeError_mix \/
  Js.add timestamp (JBigInt SECONDS_14_DAYS) = Raised TypeError_mix.
Proof. destruct timestamp; [right | left]; reflexivity. Qed.

(** An active order whose timestamp is a BigInt: [fillOrder] stops at
    the sum [order.timestamp + 7 * 24 * 60 * 60]. *)
Lemma fillOrder_bigint_timestamp (params : FillOrderParams.t)
                                 (order : LedgerOrder.t) (ts : Z) :
  respond w (CallOrders (FillOrderParams.orderId params)) = Ok (Some order) ->
  LedgerOrder.isActive order = true ->
  LedgerOrder.timestamp order = JBigInt ts ->
  fillOrder w c params tr
  = (tr ++ [CallOrders (FillOrderParams.orderId params)],
     Raised (JsError "Failed to fill order: Cannot mix BigInt and other types, use explicit conversions")).
Proof.
  intros Ho Ha Ht. unfold fillOrder.
  rewrite (require_signer_connected c s _ connected). unfold try_rethrow.
  rewrite (await_ok w _ _ _ _ Ho), Ha, Ht. reflexivity.
Qed.

Lemma cancelOrder_only_maker (orderId : Z) (order : LedgerOrder.t) (caller : string) :
  respond w (CallOrders orderId) = Ok (Some order) ->
  respond w (CallGetAddress s) = Ok caller ->
  LedgerOrder.maker order <> caller ->
  cancelOrder w c orderId tr
  = (tr ++ [CallOrders orderId] ++ [CallGetAddress s],
     Raised (JsError "Failed to cancel order: Only maker can cancel order")).
Proof.
  intros Ho Hg Hne. unfold cancelOrder.
  rewrite (require_signer_connected c s _ connected). unfold try_rethrow.
  rewrite (await_ok w _ _ _ _ Ho), (await_ok w _ _ _ _ Hg).
  apply strict_ne_true in Hne. rewrite Hne.
  rewrite <- app_assoc. reflexivity.
Qed.

End Transactions.

(** C3 (amended). With a signer connected and the creation fee read,
    [createOrder] on parameters that break a validation rule rejects
    with [Failed to create order: <rule>], where the rule named is one
    the parameters break; the read of the creation fee is the only call
    it has issued: no approval and no submission. *)
Theorem createOrder_rejects_invalid (w : World) (c : OTCClient.t) (s : Signer)
    (params : OrderParams.t) (tr : Trace) (fee : N) :
  signer c = Some s ->
  respond w CallOrderCreationFee = Ok fee ->
  invalid params ->
  exists rule : string,
    violates params rule /\
    createOrder w c params tr
    = (tr ++ [CallOrderCreationFee],
       Raised (JsError ("Failed to create order: " +:+ rule))).
Proof.
  intros Hs Hfee Hinv. unfold createOrder.
  rewrite (require_signer_connected c s _ Hs). unfold try_rethrow.
  rewrite (await_ok w _ _ _ _ Hfee). cbv zeta.
  destruct (strict_eq (OrderParams.sellToken params) ZeroAddress) eqn:E1.
  { eexists. split; [apply zero_sell_token; now apply strict_eq_true | reflexivity]. }
  destruct (strict_eq (OrderParams.buyToken params) ZeroAddress) eqn:E2.
  { eexists. split; [apply zero_buy_token; now apply strict_eq_true | reflexivity]. }
  destruct (strict_eq (OrderParams.sellToken params) (OrderParams.buyToken params)) eqn:E3.
  { eexists. split; [apply same_token; now apply strict_eq_true | reflexivity]. }
  destruct (OrderParams.sellAmount params <=? 0) eqn:E4.
  { eexists. split; [apply sell_amount; now apply Z.leb_le | reflexivity]. }
  destruct (OrderParams.buyAmount params <=? 0) eqn:E5.
  { eexists. split; [apply buy_amount; now apply Z.leb_le | reflexivity]. }
  exfalso.
  apply not_true_iff_false in E1, E2, E3. rewrite strict_eq_true in E1, E2, E3.
  apply Z.leb_gt in E4, E5. unfold invalid in Hinv. intuition lia.
Qed.

(** C2 (amended). [cancelOrder], called by the maker of an existing order
    (its timestamp a BigInt, as the ledger binding decodes it), rejects
    with [Grace period has expired] right after its two checks exactly
    when [now] exceeds the creation timestamp plus fourteen days, the
    fallback lifetime plus the fallback grace period; the constants the
    ledger reports are not read.  Otherwise its next call is the
    submission of the cancellation. *)
Theorem cancelOrder_grace_deadline (w : World) (c : OTCClient.t) (s : Signer)
    (orderId : Z) (order : LedgerOrder.t) (ts : Z) (tr : Trace) :
  signer c = Some s ->
  respond w (CallOrders orderId) = Ok (Some order) ->
  respond w (CallGetAddress s) = Ok (LedgerOrder.maker order) ->
  LedgerOrder.timestamp order = JBigInt ts ->
  let now := floor_seconds (Date_now w) in
  let deadline := ts + orderExpiry fallback + gracePeriod fallback in
  let checks := [CallOrders orderId; CallGetAddress s] in
  (cancelOrder w c orderId tr
   = (tr ++ checks,
      Raised (JsError "Failed to cancel order: Grace period has expired"))
   <-> now > deadline) /\
  (now <= deadline ->
   exists rest,
     fst (cancelOrder w c orderId tr) = tr ++ checks ++ [CallCancelOrder orderId] ++ rest).
Proof.
  intros Hs Ho Hg Ht now deadline checks.
  assert (Hrun : cancelOrder w c orderId tr
                 = if now >? deadline
                   then (tr ++ checks,
                         Raised (JsError "Failed to cancel order: Grace period has expired"))
                   else try_rethrow "Failed to cancel order"
                          (tx <- await w (CallCancelOrder orderId) ;;
                           receipt <- await w (CallWait tx) ;;
                           match find_event "OrderCanceled" (logs receipt) with
                           | None => throw_error "OrderCanceled event not found"
                           | Some event =>
                               ret {| canceled_orderId := orderId;
                                      canceled_txHash := hash receipt;
                                      cancellation :=
                                        {| s_timestamp := Number (Args.timestamp (args event));
                                           s_blockNumber := blockNumber receipt |} |}
                           end) (tr ++ checks)).
  { unfold cancelOrder. rewrite (require_signer_connected c s _ Hs).
    unfold try_rethrow.
    rewrite (await_ok w _ _ _ _ Ho), (await_ok w _ _ _ _ Hg).
    rewrite (proj2 (strict_ne_false _ _) eq_refl), Ht. simpl.
    unfold bind at 1. unfold lift. unfold Js.gt; simpl.
    fold now. unfold checks. rewrite <- !app_assoc. simpl.
    replace (ts + SECONDS_14_DAYS) with deadline
      by (unfold deadline, fallback, SECONDS_14_DAYS, SECONDS_7_DAYS; simpl; lia).
    now destruct (now >? deadline). }
  assert (Hsubmit : now <= deadline ->
            exists rest, fst (cancelOrder w c orderId tr)
                         = tr ++ checks ++ [CallCancelOrder orderId] ++ rest).
  { intros Hle. rewrite Hrun.
    replace (now >? deadline) with false
      by (symmetry; rewrite Z.gtb_ltb; apply Z.ltb_ge; lia).
    rewrite fst_try_rethrow. unfold bind, await.
    destruct (respond w (CallCancelOrder orderId)) as [tx|t];
      [| exists []; simpl; now rewrite <- app_assoc].
    destruct (respond w (CallWait tx)) as [receipt|t];
      [| exists [CallWait tx]; simpl; now rewrite <- !app_assoc].
    exists [CallWait tx].
    destruct (find_event _ _); simpl; now rewrite <- !app_assoc. }
  split; [| exact Hsubmit].
  split.
  - intros Heq. destruct (Z.le_gt_cases now deadline) as [Hle|Hgt]; [| lia].
    destruct (Hsubmit Hle) as [rest Hrest]. rewrite Heq in Hrest. simpl in Hrest.
    apply app_inv_head in Hrest. discriminate.
  - intros Hgt. rewrite Hrun.
    replace (now >? deadline) with true
      by (symmetry; rewrite Z.gtb_ltb; apply Z.ltb_lt; lia).
    reflexivity.
Qed.

(** C6. On an active order whose timestamp is a BigInt, as the ledger
    binding decodes it, [fillOrder] rejects with the TypeError of
    [order.timestamp + 7 * 24 * 60 * 60] right after reading the order,
    whoever calls and whatever the taker restriction: the taker check is
    not reached (and no approval or submission is issued). *)
Theorem fillOrder_stops_at_expiry_sum (w : World) (c : OTCClient.t) (s : Signer)
    (params : FillOrderParams.t) (order : LedgerOrder.t) (ts : Z) (tr : Trace) :
  signer c = Some s ->
  respond w (CallOrders (FillOrderParams.orderId params)) = Ok (Some order) ->
  LedgerOrder.isActive order = true ->
  LedgerOrder.timestamp order = JBigInt ts ->
  fillOrder w c params tr
  = (tr ++ [CallOrders (FillOrderParams.orderId params)],
     Raised (rethrow "Failed to fill order" TypeError_mix)) /\
  snd (fillOrder w c params tr)
  <> Raised (JsError "Failed to fill order: Not authorized to fill this order").
Proof.
  intros Hs Ho Ha Ht.
  rewrite (fillOrder_bigint_timestamp w c s tr Hs params order ts Ho Ha Ht).
  split; [reflexivity | discriminate].
Qed.

(** C8. Once the cleanup transaction is confirmed, [cleanupExpiredOrders]
    returns four lists as long as the confirmation has [OrderCleanedUp],
    [CleanupError], [RetryOrder] and [CleanupFeesDistributed] records; a
    confirmation with two, one, none and none of them gives two cleaned
    orders, one error, and no retry and no fee distribution. *)
Theorem cleanupExpiredOrders_lengths (w : World) (c : OTCClient.t) (s : Signer)
    (tx : Tx) (receipt : Receipt) (tr : Trace) :
  signer c = Some s ->
  respond w CallCleanupExpiredOrders = Ok tx ->
  respond w (CallWait tx) = Ok receipt ->
  exists res : Cleanup,
    cleanupExpiredOrders w c tr
    = (tr ++ [CallCleanupExpiredOrders] ++ [CallWait tx], Ok res) /\
    length (cleanedOrders res) = count_records "OrderCleanedUp" (logs receipt) /\
    length (errors res) = count_records "CleanupError" (logs receipt) /\
    length (retries res) = count_records "RetryOrder" (logs receipt) /\
    length (feesDistributed res)
    = count_records "CleanupFeesDistributed" (logs receipt) /\
    (count_records "OrderCleanedUp" (logs receipt) = 2%nat ->
     count_records "CleanupError" (logs receipt) = 1%nat ->
     count_records "RetryOrder" (logs receipt) = 0%nat ->
     count_records "CleanupFeesDistributed" (logs receipt) = 0%nat ->
     length (cleanedOrders res) = 2%nat /\ length (errors res) = 1%nat /\
     retries res = [] /\ feesDistributed res = []).
Proof.
  intros Hs Htx Hr. eexists. split.
  { unfold cleanupExpiredOrders. rewrite (require_signer_connected c s _ Hs).
    unfold try_rethrow.
    rewrite (await_ok w _ _ _ _ Htx), (await_ok w _ _ _ _ Hr).
    unfold ret. rewrite <- app_assoc. reflexivity. }
  simpl. rewrite !length_map, !length_filter_events.
  do 4 (split; [reflexivity |]).
  intros H2 H1 Hr0 Hf0. repeat split; try assumption.
  - apply length_zero_iff_nil. now rewrite length_map, length_filter_events.
  - apply length_zero_iff_nil. now rewrite length_map, length_filter_events.
Qed.

(** C9. The maker check of [cancelOrder] compares addresses exactly: a
    caller whose address differs from the maker's, be it only in letter
    case, is rejected with [Only maker can cancel order].  The filters
    of [getActiveOrders] compare up to letter case: every returned order
    equals each filter given up to case, and an active order is returned
    for filter values that equal its maker and tokens up to case.  The
    taker check of [fillOrder] is not reached on an order as the ledger
    binding decodes it: a caller that differs from the designated taker
    only in letter case is rejected with the TypeError of the expiry sum
    before it, not with [Not authorized to fill this order]. *)
Theorem authorization_and_filters_letter_case
    (w : World) (c : OTCClient.t) (s : Signer) (tr : Trace) (caller : string) :
  signer c = Some s ->
  respond w (CallGetAddress s) = Ok caller ->
  (forall orderId order,
     respond w (CallOrders orderId) = Ok (Some order) ->
     toLowerCase (LedgerOrder.maker order) = toLowerCase caller ->
     LedgerOrder.maker order <> caller ->
     cancelOrder w c orderId tr
     = (tr ++ [CallOrders orderId] ++ [CallGetAddress s],
        Raised (JsError "Failed to cancel order: Only maker can cancel order"))) /\
  (forall params order ts,
     respond w (CallOrders (FillOrderParams.orderId params)) = Ok (Some order) ->
     LedgerOrder.isActive order = true ->
     LedgerOrder.timestamp order = JBigInt ts ->
     LedgerOrder.taker order <> ZeroAddress ->
     toLowerCase (LedgerOrder.taker order) = toLowerCase caller ->
     LedgerOrder.taker order <> caller ->
     fillOrder w c params tr
     = (tr ++ [CallOrders (FillOrderParams.orderId params)],
        Raised (rethrow "Failed to fill order" TypeError_mix)) /\
     snd (fillOrder w c params tr)
     <> Raised (JsError "Failed to fill order: Not authorized to fill this order")) /\
  (forall params streams,
     serves w params streams ->
     exists res,
       snd (getActiveOrders w c params tr) = Ok res /\
       (forall o, In o (orders res) ->
          accepts (GetActiveOrdersParams.makerAddress params) (Order.maker o) /\
          accepts (GetActiveOrdersParams.sellToken params) (Token.token (Order.sell o)) /\
          accepts (GetActiveOrdersParams.buyToken params) (Token.token (Order.buy o))) /\
       (forall e,
          In e (createdEvents streams) ->
          active_at streams (floor_seconds (Date_now w)) e ->
          up_to_case (GetActiveOrdersParams.makerAddress params) (Args.maker (args e)) ->
          up_to_case (GetActiveOrdersParams.sellToken params) (Args.sellToken (args e)) ->
          up_to_case (GetActiveOrdersParams.buyToken params) (Args.buyToken (args e)) ->
          In (toOrder e) (orders res))).
Proof.
  intros Hs Hg. split; [| split].
  - intros orderId order Ho _ Hne.
    now apply (cancelOrder_only_maker w c s tr Hs orderId order caller).
  - intros params order ts Ho Ha Ht _ _ _.
    rewrite (fillOrder_bigint_timestamp w c s tr Hs params order ts Ho Ha Ht).
    split; [reflexivity | discriminate].
  - intros params streams Hserves.
    rewrite (getActiveOrders_run w c params tr streams Hserves). simpl.
    eexists. split; [reflexivity |]. simpl. split.
    + intros o (e & _ & <- & _ & Hp)%In_projection. exact Hp.
    + intros e Hin Hact Hm Hst Hbt.
      apply In_projection. exists e.
      split; [exact Hin |]. split; [reflexivity |]. split; [exact Hact |].
      unfold up_to_case in *. unfold passes, accepts.
      split; [| split].
      * destruct (GetActiveOrdersParams.makerAddress params); [right; now symmetry | exact I].
      * destruct (GetActiveOrdersParams.sellToken params); [right; now symmetry | exact I].
      * destruct (GetActiveOrdersParams.buyToken params); [right; now symmetry | exact I].
Qed.

(** ** The statements at sample inputs *)

Import Sample.

(** C1, as stated, fails under a filter: order 42 of [ALICE] is active
    one second after its creation, and a call that filters on the
    maker [BOB] does not return it. *)
Lemma getActiveOrders_filter_counterexample :
  let w := world streams 1001000 in
  let params := by_maker BOB in
  serves w params streams /\
  In order42 (createdEvents streams) /\
  active_at streams (floor_seconds (Date_now w)) order42 /\
  exists res,
    snd (getActiveOrders w (client ALICE) params []) = Ok res /\
    ~ In (toOrder order42) (orders res).
Proof.
  cbv zeta. split; [repeat split |]. split; [simpl; auto |].
  split.
  - unfold active_at, no_terminal_event. simpl.
    split; [repeat split; intros [] | vm_compute; discriminate].
  - eexists. split; [vm_compute; reflexivity |].
    simpl. intros [H | []]. discriminate.
Qed.

(** Past the safe integers the order of a filled creation can be in the
    result: it is the order built from another, unfilled creation whose
    identifier [Number] rounds to the same value. *)
Lemma getActiveOrders_rounded_identifier :
  let w := world streams_unsafe 1001000 in
  exists res,
    snd (getActiveOrders w (client ALICE) GetActiveOrdersParams.empty []) = Ok res /\
    orders res = [toOrder order_2_53_1] /\
    toOrder order_2_53 = toOrder order_2_53_1 /\
    In order_2_53 (createdEvents streams_unsafe) /\
    In (toOrder order_2_53) (orders res) /\
    ~ active_at streams_unsafe (floor_seconds (Date_now w)) order_2_53.
Proof.
  cbv zeta. eexists. split; [vm_compute; reflexivity |].
  split; [reflexivity |]. split; [reflexivity |]. split; [simpl; auto |].
  split; [left; reflexivity |].
  intros [[Hfilled _] _]. apply Hfilled. left. reflexivity.
Qed.

Lemma getActiveOrders_membership_witness :
  let w := world streams 1001000 in
  let params := by_maker alice in
  exists res,
    getActiveOrders w (client ALICE) params [] = (queries params, Ok res) /\
    In (toOrder order42) (orders res) /\
    ~ In (toOrder order43) (orders res).
Proof.
  cbv zeta.
  destruct (getActiveOrders_membership (world streams 1001000) (client ALICE)
              (by_maker alice) [] streams) as (res & Hrun & _ & Hiff & _).
  { repeat split. }
  exists res. split; [exact Hrun |]. split.
  - apply Hiff; [simpl; auto | reflexivity |]. split.
    + unfold active_at, no_terminal_event. simpl.
      split; [repeat split; intros [] | vm_compute; discriminate].
    + unfold passes. simpl. repeat split. right. reflexivity.
  - intros Hin. apply Hiff in Hin; [| simpl; auto | reflexivity].
    destruct Hin as [_ [[H | H] _]]; discriminate.
Defined.

(** C2, as stated, fails on a ledger that reports a grace period other
    than seven days: with a lifetime of seven days and a grace period of
    one day, one second past [timestamp + lifetime + grace] the maker's
    cancellation is still submitted (and confirmed). *)
Lemma cancelOrder_reported_grace_counterexample :
  let w := world streams ((1000 + 604800 + 86400 + 1) * 1000) in
  exists info,
    snd (getOrderExpiryInfo w []) = Ok info /\
    respond w (CallOrders 42) = Ok (Some (LedgerOrder.mk ALICE BOB (JBigInt 1000) true)) /\
    floor_seconds (Date_now w) > 1000 + orderExpiry info + gracePeriod info /\
    exists res,
      cancelOrder w (client ALICE) 42 []
      = ([CallOrders 42; CallGetAddress ALICE; CallCancelOrder 42; CallWait 4%N],
         Ok res).
Proof.
  cbv zeta. eexists. split; [vm_compute; reflexivity |].
  split; [reflexivity |]. split; [vm_compute; reflexivity |].
  eexists. vm_compute. reflexivity.
Qed.

Lemma cancelOrder_grace_deadline_witness :
  cancelOrder (world streams ((1000 + 1209600 + 1) * 1000)) (client ALICE) 42 []
  = ([CallOrders 42; CallGetAddress ALICE],
     Raised (JsError "Failed to cancel order: Grace period has expired")) /\
  exists rest,
    fst (cancelOrder (world streams ((1000 + 1209600) * 1000)) (client ALICE) 42 [])
    = [CallOrders 42; CallGetAddress ALICE; CallCancelOrder 42] ++ rest.
Proof.
  split.
  - apply (cancelOrder_grace_deadline
             (world streams ((1000 + 1209600 + 1) * 1000)) (client ALICE) ALICE 42
             (LedgerOrder.mk ALICE BOB (JBigInt 1000) true) 1000 []);
      try reflexivity.
  - apply (cancelOrder_grace_deadline
             (world streams ((1000 + 1209600) * 1000)) (client ALICE) ALICE 42
             (LedgerOrder.mk ALICE BOB (JBigInt 1000) true) 1000 []);
      try reflexivity.
Defined.

(** C3, as stated, fails: [createOrder] with the same token on both
    legs has issued a network call, the read of the creation fee, when
    it rejects. *)
Lemma createOrder_fee_read_counterexample :
  OrderParams.sellToken same_token = OrderParams.buyToken same_token /\
  createOrder (world streams 0) (client ALICE) same_token []
  = ([CallOrderCreationFee],
     Raised (JsError "Failed to create order: Cannot swap same token")) /\
  fst (createOrder (world streams 0) (client ALICE) same_token []) <> [].
Proof. repeat split. discriminate. Qed.

Lemma createOrder_rejects_invalid_witness :
  exists rule : string,
    violates same_token rule /\
    createOrder (world streams 0) (client ALICE) same_token []
    = ([CallOrderCreationFee],
       Raised (JsError ("Failed to create order: " +:+ rule))).
Proof.
  apply (createOrder_rejects_invalid (world streams 0) (client ALICE) ALICE
           same_token [] 3%N); [reflexivity | reflexivity |].
  left. reflexivity.
Defined.

(** C5, as stated, fails on a ledger that reports no grace period:
    [isInGracePeriod] is false one second after the lifetime, and at
    [lifetime + grace]. *)
Lemma isInGracePeriod_no_grace_counterexample :
  snd (getOrderExpiryInfo no_grace [])
  = Ok {| orderExpiry := 604800; gracePeriod := 0 |} /\
  snd (isInGracePeriod (at_time no_grace (1000 * (1000 + 604800 + 1))) 1000 [])
  = Ok false /\
  snd (isInGracePeriod (at_time no_grace (1000 * (1000 + 604800 + 0))) 1000 [])
  = Ok false.
Proof. repeat split. Qed.

Lemma isInGracePeriod_boundaries_witness :
  snd (isInGracePeriod (at_time (world streams 0) (1000 * (1000 + 604800 + 1))) 1000 [])
  = Ok true /\
  snd (isInGracePeriod (at_time (world streams 0) (1000 * (1000 + 604800 + 86400))) 1000 [])
  = Ok true.
Proof.
  destruct (isInGracePeriod_boundaries (world streams 0) [] 1000)
    as (info & Hinfo & _ & _ & Htrue & _).
  specialize (Hinfo 0). vm_compute in Hinfo. injection Hinfo as <-.
  apply Htrue. simpl. lia.
Defined.

Lemma fillOrder_stops_at_expiry_sum_witness :
  fillOrder (world streams 2000000) (client ALICE) (FillOrderParams.mk 42 TOKEN_B 50) []
  = ([CallOrders 42],
     Raised (JsError "Failed to fill order: Cannot mix BigInt and other types, use explicit conversions")) /\
  snd (fillOrder (world streams 2000000) (client ALICE) (FillOrderParams.mk 42 TOKEN_B 50) [])
  <> Raised (JsError "Failed to fill order: Not authorized to fill this order").
Proof.
  apply (fillOrder_stops_at_expiry_sum (world streams 2000000) (client ALICE) ALICE
           (FillOrderParams.mk 42 TOKEN_B 50)
           (LedgerOrder.mk ALICE BOB (JBigInt 1000) true) 1000 []);
    reflexivity.
Defined.


Lemma cleanupExpiredOrders_lengths_witness :
  exists res : Cleanup,
    cleanupExpiredOrders (world streams 0) (client BOB) []
    = ([CallCleanupExpiredOrders; CallWait 5%N], Ok res) /\
    length (cleanedOrders res) = 2%nat /\ length (errors res) = 1%nat /\
    retries res = [] /\ feesDistributed res = [].
Proof.
  destruct (cleanupExpiredOrders_lengths (world streams 0) (client BOB) BOB 5%N
              cleanup_receipt []) as (res & Hrun & _ & _ & _ & _ & Hlen);
    try reflexivity.
  exists res. split; [exact Hrun |]. apply Hlen; reflexivity.
Defined.

Lemma authorization_and_filters_letter_case_witness :
  cancelOrder (world streams 2000000) (client alice) 42 []
  = ([CallOrders 42; CallGetAddress alice],
     Raised (JsError "Failed to cancel order: Only maker can cancel order")) /\
  fillOrder (world streams 2000000) (client "0x00000000000000000000000000000000000000b0")
            (FillOrderParams.mk 42 TOKEN_B 50) []
  = ([CallOrders 42],
     Raised (JsError "Failed to fill order: Cannot mix BigInt and other types, use explicit conversions")) /\
  exists res,
    snd (getActiveOrders (world streams 2000000) (client alice) (by_maker alice) [])
    = Ok res /\
    In (toOrder order42) (orders res) /\
    ~ In (toOrder order43) (orders res).
Proof.
  split; [| split].
  - apply (authorization_and_filters_letter_case (world streams 2000000)
             (client alice) alice [] alice eq_refl eq_refl)
      with (order := LedgerOrder.mk ALICE BOB (JBigInt 1000) true);
      try reflexivity; discriminate.
  - apply (authorization_and_filters_letter_case (world streams 2000000)
             (client "0x00000000000000000000000000000000000000b0")
             "0x00000000000000000000000000000000000000b0" []
             "0x00000000000000000000000000000000000000b0" eq_refl eq_refl)
      with (order := LedgerOrder.mk ALICE BOB (JBigInt 1000) true) (ts := 1000);
      try reflexivity; discriminate.
  - destruct (authorization_and_filters_letter_case (world streams 2000000)
                (client alice) alice [] alice eq_refl eq_refl)
      as (_ & _ & Hfilter).
    destruct (Hfilter (by_maker alice) streams) as (res & Hres & Honly & Hall).
    { repeat split. }
    exists res. split; [exact Hres |]. split.
    + apply Hall.
      * simpl; auto.
      * unfold active_at, no_terminal_event. simpl.
        split; [repeat split; intros [] | vm_compute; discriminate].
      * reflexivity.
      * exact I.
      * exact I.
    + intros Hin. apply Honly in Hin as [[H | H] _]; discriminate H.
Defined.

(** * Further properties of the client *)

(** ** Rejections *)

Lemma snd_try_rethrow {A} (context : string) (m : M A) (tr : Trace) :
  snd (try_rethrow context m tr)
  = match snd (m tr) with
    | Ok a => Ok a
    | Raised t => Raised (rethrow context t)
    end.
Proof. unfold try_rethrow. now destruct (m tr) as [tr' []]. Qed.




Section Rejections.

Variable w : World.
Variable c : OTCClient.t.
Variable tr : Trace.

(** X1. Each of the four state-changing operations rejects with
    [No signer connected] exactly when the client has no signer, and
    then it has issued no call. *)
Theorem no_signer_connected_iff :
  (forall params,
     (snd (createOrder w c params tr) = Raised (JsError "No signer connected")
      <-> signer c = None) /\
     (signer c = None -> fst (createOrder w c params tr) = tr)) /\
  (forall params,
     (snd (fillOrder w c params tr) = Raised (JsError "No signer connected")
      <-> signer c = None) /\
     (signer c = None -> fst (fillOrder w c params tr) = tr)) /\
  (forall orderId,
     (snd (cancelOrder w c orderId tr) = Raised (JsError "No signer connected")
      <-> signer c = None) /\
     (signer c = None -> fst (cancelOrder w c orderId tr) = tr)) /\
  (snd (cleanupExpiredOrders w c tr) = Raised (JsError "No signer connected")
   <-> signer c = None) /\
  (signer c = None -> fst (cleanupExpiredOrders w c tr) = tr).
Proof.
  unfold createOrder, fillOrder, cancelOrder, cleanupExpiredOrders, require_signer.
  destruct (signer c) as [s|].
  - cbv zeta. repeat split; try discriminate; rewrite snd_try_rethrow;
      intros H; destruct (snd _) as [a|[m|v]]; discriminate H.
  - repeat split.
Qed.











(** X3. [getActiveOrders] issues its five queries, in the order creation,
    fill, cancellation, cleanup, retry, and no other call, whether it
    resolves or rejects; when it rejects, the value thrown is the
    rejection of one of the five queries, after the [catch]. *)
Theorem getActiveOrders_queries_only (params : GetActiveOrdersParams.t) :
  fst (getActiveOrders w c params tr) = tr ++ queries params /\
  match snd (getActiveOrders w c params tr) with
  | Ok res => exists s, serves w params s
  | Raised t =>
      exists q t0, In q (queries params) /\ respond w q = Raised t0 /\
                   t = rethrow "Failed to fetch active orders" t0
  end.
Proof.
  unfold getActiveOrders, queries, serves. cbv zeta.
  fold (queried_from params) (queried_to params).
  rewrite fst_try_rethrow, snd_try_rethrow. unfold bind, all2, await.
  destruct (respond w (CallQueryFilter "OrderCreated" _ _)) as [cs|t1] eqn:H1;
  destruct (respond w (CallQueryFilter "OrderFilled" _ _)) as [fs|t2] eqn:H2;
  destruct (respond w (CallQueryFilter "OrderCanceled" _ _)) as [xs|t3] eqn:H3;
  destruct (respond w (CallQueryFilter "OrderCleanedUp" _ _)) as [ls|t4] eqn:H4;
  destruct (respond w (CallQueryFilter "RetryOrder" _ _)) as [rs|t5] eqn:H5;
  simpl; rewrite <- !app_assoc; (split; [reflexivity |]);
  try (exists (mkStreams cs fs xs ls rs); now repeat split);
  first
    [ exists (CallQueryFilter "OrderCreated" (queried_from params) (queried_to params)), t1;
      now (split; [simpl; tauto | split; [exact H1 | reflexivity]])
    | exists (CallQueryFilter "OrderFilled" (queried_from params) (queried_to params)), t2;
      now (split; [simpl; tauto | split; [exact H2 | reflexivity]])
    | exists (CallQueryFilter "OrderCanceled" (queried_from params) (queried_to params)), t3;
      now (split; [simpl; tauto | split; [exact H3 | reflexivity]])
    | exists (CallQueryFilter "OrderCleanedUp" (queried_from params) (queried_to params)), t4;
      now (split; [simpl; tauto | split; [exact H4 | reflexivity]])
    | exists (CallQueryFilter "RetryOrder" (queried_from params) (queried_to params)), t5;
      now (split; [simpl; tauto | split; [exact H5 | reflexivity]]) ].
Qed.

End Rejections.

(** ** The active-order projection *)

Lemma sublist_List_filter {A} (f : A -> bool) (l : list A) :
  sublist (List.filter f l) l.
Proof.
  induction l as [|x l IH]; simpl; [constructor |].
  destruct (f x); now constructor.
Qed.

Lemma sublist_map {A B} (f : A -> B) (l1 l2 : list A) :
  sublist l1 l2 -> sublist (map f l1) (map f l2).
Proof. induction 1; simpl; now constructor. Qed.

Lemma sublist_filter_by (field : Order.t -> string) (wanted : option string)
                        (l : list Order.t) :
  sublist (filter_by field wanted l) l.
Proof.
  unfold filter_by. destruct (truthy wanted); [apply sublist_List_filter | reflexivity].
Qed.

Lemma toLowerCase_empty (a : string) : toLowerCase a = "" -> a = "".
Proof. now destruct a. Qed.

Lemma filter_by_same (field : Order.t -> string) (x y : option string)
                     (l : list Order.t) :
  same_filter x y -> filter_by field x l = filter_by field y l.
Proof.
  unfold same_filter, filter_by.
  destruct x as [a|], y as [b|]; simpl; try (intros ->; reflexivity); auto.
  intros H.
  destruct (String.eqb_spec a ""), (String.eqb_spec b ""); subst; simpl in *;
    try reflexivity.
  - symmetry in H. now apply toLowerCase_empty in H.
  - now apply toLowerCase_empty in H.
  - now rewrite H.
Qed.

Lemma floor_seconds_mono (ms ms' : Z) :
  ms <= ms' -> floor_seconds ms <= floor_seconds ms'.
Proof. rewrite !floor_seconds_div. intros H. apply Z.div_le_mono; lia. Qed.

Section Projection.

Variable w : World.
Variable c : OTCClient.t.
Variable tr : Trace.

(** X4. The orders [getActiveOrders] returns are the images of creation
    events, in the order of the creation stream and each creation event
    at most once: nothing is returned for an identifier that only a
    retry or another stream mentions, and nothing is reordered. *)
Theorem getActiveOrders_keeps_stream_order
    (params : GetActiveOrdersParams.t) (s : Streams) :
  serves w params s ->
  exists res : ActiveOrders,
    snd (getActiveOrders w c params tr) = Ok res /\
    sublist (orders res) (map toOrder (createdEvents s)) /\
    (length (orders res) <= length (createdEvents s))%nat /\
    pagination res = {| hasMore := false; nextOffset := 0 |}.
Proof.
  intros Hs. rewrite (getActiveOrders_run w c params tr s Hs). simpl.
  eexists. split; [reflexivity |]. simpl.
  assert (Hsub : sublist (projection s (floor_seconds (Date_now w)) params)
                         (map toOrder (createdEvents s))).
  { unfold projection.
    do 3 (etransitivity; [apply sublist_filter_by |]).
    apply sublist_map, sublist_List_filter. }
  split; [exact Hsub |]. split; [| reflexivity].
  apply sublist_length in Hsub. now rewrite length_map in Hsub.
Qed.

(** X5. The optional filters compare up to letter case, and an empty
    filter string is no filter: two calls over the same block range
    whose filters differ only so behave alike. *)
Theorem getActiveOrders_filter_values
    (fromBlock : option Z) (toBlock : option BlockTag)
    (maker maker' sell sell' buy buy' : option string) :
  same_filter maker maker' ->
  same_filter sell sell' ->
  same_filter buy buy' ->
  getActiveOrders w c (GetActiveOrdersParams.mk fromBlock toBlock maker sell buy) tr
  = getActiveOrders w c (GetActiveOrdersParams.mk fromBlock toBlock maker' sell' buy') tr.
Proof.
  intros Hm Hs Hb. unfold getActiveOrders. cbv zeta. simpl.
  set (from := default 0 fromBlock). set (to := default latest toBlock).
  unfold try_rethrow, bind, all2, await.
  destruct (respond w (CallQueryFilter "OrderCreated" from to)) as [cs|t1];
  destruct (respond w (CallQueryFilter "OrderFilled" from to)) as [fs|t2];
  destruct (respond w (CallQueryFilter "OrderCanceled" from to)) as [xs|t3];
  destruct (respond w (CallQueryFilter "OrderCleanedUp" from to)) as [ls|t4];
  destruct (respond w (CallQueryFilter "RetryOrder" from to)) as [rs|t5];
  try reflexivity.
  unfold ret.
  rewrite (filter_by_same Order.maker maker maker' _ Hm).
  rewrite (filter_by_same _ sell sell' _ Hs).
  rewrite (filter_by_same _ buy buy' _ Hb).
  reflexivity.
Qed.

(** X6. With the streams fixed, orders only leave the result as the
    clock advances: what is returned at a later instant is returned at
    every earlier one. *)
Theorem getActiveOrders_shrinks_with_time
    (params : GetActiveOrdersParams.t) (s : Streams) (ms ms' : Z) :
  serves w params s ->
  ms <= ms' ->
  exists res res' : ActiveOrders,
    snd (getActiveOrders (at_time w ms) c params tr) = Ok res /\
    snd (getActiveOrders (at_time w ms') c params tr) = Ok res' /\
    forall o, In o (orders res') -> In o (orders res).
Proof.
  intros Hs Hle.
  rewrite (getActiveOrders_run (at_time w ms) c params tr s Hs).
  rewrite (getActiveOrders_run (at_time w ms') c params tr s Hs). simpl.
  do 2 eexists. split; [reflexivity |]. split; [reflexivity |]. simpl.
  intros o (e & Hin & Heq & [Ht Hnow] & Hp)%In_projection.
  apply In_projection. exists e.
  split; [exact Hin |]. split; [exact Heq |]. split; [| exact Hp].
  split; [exact Ht |].
  apply floor_seconds_mono in Hle. simpl in *. lia.
Qed.

End Projection.

(** ** What the transactions never do *)

(** The calls an operation adds to the trace, and a call found among them. *)
Ltac new_calls :=
  eexists; split; [simpl; rewrite <- ?app_assoc; reflexivity |].

Ltac among H :=
  simpl in H;
  repeat match type of H with
         | _ \/ _ => destruct H as [H | H]
         end;
  try discriminate H; try contradiction.

(** A branch of an operation: its new calls, and the one asked about
    found among them. *)
Ltac branch :=
  new_calls; split; intros;
  match goal with
  | H : In _ _ |- _ => among H
  end.

(** The steps of [fillOrder] from the balance check on. *)
Ltac fill_tail w c params s order ts caller :=
  let balance := fresh "balance" in
  let Hb := fresh "Hb" in
  let Hlt := fresh "Hlt" in
  let Hfill := fresh "Hfill" in
  destruct (respond w (CallBalanceOf _ _)) as [balance|?] eqn:Hb; [| branch];
  destruct (Z.of_N balance <? _) eqn:Hlt; [branch |];
  apply Z.ltb_ge in Hlt;
  assert (Hfill : fillable w c params)
    by (exists s, order, ts, caller, balance; repeat split; auto);
  destruct (respond w (CallApprove _ _ _)) as [?approveTx|?] eqn:?Ha;
    [destruct (respond w (CallWait approveTx)) as [?r1|?] eqn:?Hw1;
       [destruct (respond w (CallFillOrder _)) as [?tx|?] eqn:?Hf;
          [destruct (respond w (CallWait tx)) as [?r2|?] eqn:?Hw2;
             [destruct (find_event "OrderFilled" (logs r2)) |] |] |] |];
  new_calls; split; intros;
  match goal with
  | H : In _ _ |- _ =>
      among H;
      try (injection H as <- <- <-; now auto);
      injection H as <-; repeat split; eauto
  end.

Section Guards.

Variable w : World.
Variable c : OTCClient.t.
Variable tr : Trace.

(** X7. [createOrder] approves nothing but the sell amount of the sell
    token, for the ledger; and it submits a creation only for parameters
    that break no validation rule, after that approval was confirmed,
    with the parameters as given (the zero address for an absent taker)
    and the creation fee it has just read as the value sent. *)
Theorem createOrder_submission_guarded (params : OrderParams.t) :
  exists new : Trace,
    fst (createOrder w c params tr) = tr ++ new /\
    (forall token spender amount,
       In (CallApprove token spender amount) new ->
       ~ invalid params /\
       token = OrderParams.sellToken params /\
       spender = target c /\
       amount = OrderParams.sellAmount params) /\
    (forall taker sellToken sellAmount buyToken buyAmount value,
       In (CallCreateOrder taker sellToken sellAmount buyToken buyAmount value) new ->
       ~ invalid params /\
       taker = default ZeroAddress (OrderParams.taker params) /\
       sellToken = OrderParams.sellToken params /\
       sellAmount = OrderParams.sellAmount params /\
       buyToken = OrderParams.buyToken params /\
       buyAmount = OrderParams.buyAmount params /\
       respond w CallOrderCreationFee = Ok value /\
       exists approveTx receipt,
         respond w (CallApprove sellToken (target c) sellAmount) = Ok approveTx /\
         respond w (CallWait approveTx) = Ok receipt).
Proof.
  unfold createOrder, require_signer.
  destruct (signer c) as [s|];
    [| exists []; rewrite app_nil_r; repeat split; intros; contradiction].
  cbv zeta. rewrite fst_try_rethrow. unfold bind, await.
  destruct (respond w CallOrderCreationFee) as [fee|t] eqn:Hfee;
    [| new_calls; split; intros; among H].
  destruct (strict_eq (OrderParams.sellToken params) ZeroAddress) eqn:E1;
    [new_calls; split; intros; among H |].
  destruct (strict_eq (OrderParams.buyToken params) ZeroAddress) eqn:E2;
    [new_calls; split; intros; among H |].
  destruct (strict_eq (OrderParams.sellToken params) (OrderParams.buyToken params)) eqn:E3;
    [new_calls; split; intros; among H |].
  destruct (OrderParams.sellAmount params <=? 0) eqn:E4;
    [new_calls; split; intros; among H |].
  destruct (OrderParams.buyAmount params <=? 0) eqn:E5;
    [new_calls; split; intros; among H |].
  assert (Hvalid : ~ invalid params).
  { apply not_true_iff_false in E1, E2, E3. rewrite strict_eq_true in E1, E2, E3.
    apply Z.leb_gt in E4, E5. unfold invalid. intuition lia. }
  destruct (respond w (CallApprove _ _ _)) as [approveTx|t] eqn:Ha;
    [| new_calls; split; intros; among H; injection H as <- <- <-; auto].
  destruct (respond w (CallWait approveTx)) as [r1|t] eqn:Hw1;
    [| new_calls; split; intros; among H; injection H as <- <- <-; auto].
  destruct (respond w (CallCreateOrder _ _ _ _ _ _)) as [tx|t] eqn:Hc;
    [destruct (respond w (CallWait tx)) as [r2|t] eqn:Hw2;
       [destruct (find_event "OrderCreated" (logs r2)) |] |];
    new_calls; split; intros; among H;
    try (injection H as <- <- <-; now auto);
    injection H as <- <- <- <- <- <-; repeat split; eauto.
Qed.

(** X8. [fillOrder] approves nothing but the buy amount of the given
    buy token, for the ledger, and submits nothing but the fill of the
    given order; it does either only after it has found the order
    active, with a Number timestamp at most seven days old, the caller
    its designated taker if it has one, and the caller's balance at
    least the buy amount; and it submits only after the approval was
    confirmed. *)
Theorem fillOrder_submission_guarded (params : FillOrderParams.t) :
  exists new : Trace,
    fst (fillOrder w c params tr) = tr ++ new /\
    (forall token spender amount,
       In (CallApprove token spender amount) new ->
       fillable w c params /\
       token = FillOrderParams.buyToken params /\
       spender = target c /\
       amount = FillOrderParams.buyAmount params) /\
    (forall orderId,
       In (CallFillOrder orderId) new ->
       fillable w c params /\
       orderId = FillOrderParams.orderId params /\
       exists approveTx receipt,
         respond w (CallApprove (FillOrderParams.buyToken params) (target c)
                                (FillOrderParams.buyAmount params)) = Ok approveTx /\
         respond w (CallWait approveTx) = Ok receipt).
Proof.
  unfold fillOrder, require_signer.
  destruct (signer c) as [s|] eqn:Hs;
    [| exists []; rewrite app_nil_r; repeat split; intros; contradiction].
  cbv zeta. rewrite fst_try_rethrow. unfold bind, await, lift.
  destruct (respond w (CallOrders _)) as [[order|]|t] eqn:Ho;
    [| new_calls; split; intros; among H ..].
  destruct (LedgerOrder.isActive order) eqn:Hact; simpl;
    [| new_calls; split; intros; among H].
  destruct (LedgerOrder.timestamp order) as [ts|ts] eqn:Hts; simpl;
    [| new_calls; split; intros; among H].
  destruct (Js.gt _ _) eqn:Hgt; [new_calls; split; intros; among H |].
  unfold Js.gt in Hgt; simpl in Hgt. rewrite Z.gtb_ltb in Hgt. apply Z.ltb_ge in Hgt.
  destruct (strict_ne (LedgerOrder.taker order) ZeroAddress) eqn:Hz.
  - destruct (respond w (CallGetAddress s)) as [caller|t] eqn:Hg;
      [| new_calls; split; intros; among H].
    simpl. destruct (strict_ne (LedgerOrder.taker order) caller) eqn:Hne; simpl;
      [new_calls; split; intros; among H |].
    apply strict_ne_false in Hne.
    fill_tail w c params s order ts caller.
  - apply strict_ne_false in Hz. simpl.
    destruct (respond w (CallGetAddress s)) as [caller|t] eqn:Hg;
      [| new_calls; split; intros; among H].
    fill_tail w c params s order ts caller.
Qed.

(** X9. [cancelOrder] submits nothing but the cancellation of the given
    order, and only after it has found the order, the caller to be
    exactly its maker, and the BigInt timestamp at most fourteen days
    old. *)
Theorem cancelOrder_submission_guarded (orderId : Z) :
  exists new : Trace,
    fst (cancelOrder w c orderId tr) = tr ++ new /\
    forall id, In (CallCancelOrder id) new -> id = orderId /\ cancelable w c orderId.
Proof.
  unfold cancelOrder, require_signer.
  destruct (signer c) as [s|] eqn:Hs;
    [| exists []; rewrite app_nil_r; repeat split; intros; contradiction].
  rewrite fst_try_rethrow. unfold bind, await, lift.
  destruct (respond w (CallOrders _)) as [[order|]|t] eqn:Ho;
    [| new_calls; intros; among H ..].
  destruct (respond w (CallGetAddress s)) as [caller|t] eqn:Hg;
    [| new_calls; intros; among H].
  destruct (strict_ne (LedgerOrder.maker order) caller) eqn:Hne; simpl;
    [new_calls; intros; among H |].
  apply strict_ne_false in Hne. subst caller.
  destruct (LedgerOrder.timestamp order) as [ts|ts] eqn:Hts; simpl;
    [new_calls; intros; among H |].
  destruct (Js.gt _ _) eqn:Hgt; [new_calls; intros; among H |].
  unfold Js.gt in Hgt; simpl in Hgt. rewrite Z.gtb_ltb in Hgt. apply Z.ltb_ge in Hgt.
  assert (Hcan : cancelable w c orderId)
    by (exists s, order, ts; repeat split; auto).
  destruct (respond w (CallCancelOrder _)) as [tx|t] eqn:Hc;
    [destruct (respond w (CallWait tx)) as [r|t] eqn:Hw;
       [destruct (find_event "OrderCanceled" (logs r)) |] |];
    new_calls; intros; among H; injection H as <-; auto.
Qed.

End Guards.

(** ** Reads that fall back *)


Section Fallbacks.

Variable w : World.
Variable c : OTCClient.t.
Variable tr : Trace.

(** X10. [getOrderExpiryInfo] never rejects and always issues both
    reads.  It resolves to the ledger's two constants when both reads
    are answered; when either fails it resolves to the seven-day
    fallback for both, also for the constant that was read. *)
Theorem getOrderExpiryInfo_falls_back :
  exists info : ExpiryInfo,
    getOrderExpiryInfo w tr
    = (tr ++ [CallORDER_EXPIRY] ++ [CallGRACE_PERIOD], Ok info) /\
    0 <= orderExpiry info /\ 0 <= gracePeriod info /\
    ((exists e g, respond w CallORDER_EXPIRY = Ok e /\
                  respond w CallGRACE_PERIOD = Ok g /\
                  info = {| orderExpiry := Number e; gracePeriod := Number g |}) \/
     (((exists t, respond w CallORDER_EXPIRY = Raised t) \/
       (exists t, respond w CallGRACE_PERIOD = Raised t)) /\
      info = {| orderExpiry := 604800; gracePeriod := 604800 |})).
Proof.
  unfold getOrderExpiryInfo, try_default, bind, all2, await.
  destruct (respond w CallORDER_EXPIRY) as [e|t1], (respond w CallGRACE_PERIOD) as [g|t2];
    simpl; rewrite <- app_assoc; eexists; (split; [reflexivity |]); simpl;
    unfold Number, SECONDS_7_DAYS; (split; [lia |]); (split; [lia |]).
  - left. eauto.
  - right. split; [right; eauto | reflexivity].
  - right. split; [left; eauto | reflexivity].
  - right. split; [left; eauto | reflexivity].
Qed.


End Fallbacks.

(** ** Expiry, listing and cancellation together *)

Lemma cancelOrder_submits (w : World) (c : OTCClient.t) (s : Signer) (orderId : Z)
                          (order : LedgerOrder.t) (ts : Z) (tr : Trace) :
  signer c = Some s ->
  respond w (CallOrders orderId) = Ok (Some order) ->
  respond w (CallGetAddress s) = Ok (LedgerOrder.maker order) ->
  LedgerOrder.timestamp order = JBigInt ts ->
  floor_seconds (Date_now w) <= ts + SECONDS_14_DAYS ->
  exists rest,
    fst (cancelOrder w c orderId tr)
    = tr ++ [CallOrders orderId; CallGetAddress s; CallCancelOrder orderId] ++ rest.
Proof.
  intros Hs Ho Hg Ht Hle. unfold cancelOrder.
  rewrite (require_signer_connected c s _ Hs), fst_try_rethrow.
  rewrite (await_ok w _ _ _ _ Ho), (await_ok w _ _ _ _ Hg).
  rewrite (proj2 (strict_ne_false _ _) eq_refl), Ht. simpl.
  unfold bind at 1. unfold lift. unfold Js.gt; simpl.
  replace (floor_seconds (Date_now w) >? ts + SECONDS_14_DAYS) with false
    by (symmetry; rewrite Z.gtb_ltb; apply Z.ltb_ge; lia).
  unfold bind, await.
  destruct (respond w (CallCancelOrder orderId)) as [tx|t];
    [destruct (respond w (CallWait tx)) as [r|t];
       [destruct (find_event "OrderCanceled" (logs r)) |] |];
    eexists; simpl; rewrite <- ?app_assoc; simpl; reflexivity.
Qed.

Lemma cancelOrder_number_timestamp (w : World) (c : OTCClient.t) (s : Signer)
                                   (orderId : Z) (order : LedgerOrder.t) (ts : Z)
                                   (tr : Trace) :
  signer c = Some s ->
  respond w (CallOrders orderId) = Ok (Some order) ->
  respond w (CallGetAddress s) = Ok (LedgerOrder.maker order) ->
  LedgerOrder.timestamp order = JNumber ts ->
  cancelOrder w c orderId tr
  = (tr ++ [CallOrders orderId] ++ [CallGetAddress s],
     Raised (rethrow "Failed to cancel order" TypeError_mix)).
Proof.
  intros Hs Ho Hg Ht. unfold cancelOrder.
  rewrite (require_signer_connected c s _ Hs). unfold try_rethrow.
  rewrite (await_ok w _ _ _ _ Ho), (await_ok w _ _ _ _ Hg).
  rewrite (proj2 (strict_ne_false _ _) eq_refl), Ht. simpl.
  rewrite <- app_assoc. reflexivity.
Qed.

Section Lifecycle.

Variable w : World.
Variable c : OTCClient.t.
Variable tr : Trace.


(** X13. [getActiveOrders] tests expiry on whole seconds and
    [isOrderExpired] on the fractional clock.  With a seven-day lifetime
    resolved, a creation event without terminal event that passes the
    filters is listed whenever [isOrderExpired] says it is not expired;
    and it is still listed, though reported expired, during the second
    that follows its lifetime. *)
Theorem listing_and_isOrderExpired
    (params : GetActiveOrdersParams.t) (s : Streams) (e : EventLog) (ms : Z) :
  serves w params s ->
  orderExpiry (resolved w) = SECONDS_7_DAYS ->
  In e (createdEvents s) ->
  no_terminal_event s (Args.orderId (args e)) ->
  passes params e ->
  let createdAt := Order.createdAt (toOrder e) in
  exists res : ActiveOrders,
    snd (getActiveOrders (at_time w ms) c params tr) = Ok res /\
    (snd (isOrderExpired (at_time w ms) createdAt tr) = Ok false ->
     In (toOrder e) (orders res)) /\
    (1000 * (createdAt + SECONDS_7_DAYS) < ms < 1000 * (createdAt + SECONDS_7_DAYS + 1) ->
     In (toOrder e) (orders res) /\
     snd (isOrderExpired (at_time w ms) createdAt tr) = Ok true).
Proof.
  intros Hs Hlife Hin Hterm Hpass createdAt.
  rewrite (getActiveOrders_run (at_time w ms) c params tr s Hs).
  rewrite isOrderExpired_run, Hlife. simpl.
  eexists. split; [reflexivity |]. simpl.
  assert (Hlisted : floor_seconds ms <= createdAt + SECONDS_7_DAYS ->
                    In (toOrder e) (projection s (floor_seconds ms) params)).
  { intros Hle. apply In_projection. exists e.
    split; [exact Hin |]. split; [reflexivity |]. split; [| exact Hpass].
    split; [exact Hterm | exact Hle]. }
  rewrite floor_seconds_div in Hlisted.
  split.
  - intros [= H]. rewrite Z.gtb_ltb in H. apply Z.ltb_ge in H.
    apply Hlisted. apply Z.div_le_upper_bound; lia.
  - intros [Hlo Hhi]. split.
    + apply Hlisted. apply Z.lt_succ_r. apply Z.div_lt_upper_bound; lia.
    + f_equal. rewrite Z.gtb_ltb. apply Z.ltb_lt. lia.
Qed.

(** X14. While [isInGracePeriod] holds for an order's creation time, on
    a ledger whose lifetime and grace period add up to at most fourteen
    days (the fallback constants do), the maker's [cancelOrder] on that
    order goes through its checks and submits the cancellation. *)
Theorem maker_can_cancel_in_grace_period
    (s : Signer) (orderId : Z) (order : LedgerOrder.t) (ts ms : Z) :
  signer c = Some s ->
  respond w (CallOrders orderId) = Ok (Some order) ->
  respond w (CallGetAddress s) = Ok (LedgerOrder.maker order) ->
  LedgerOrder.timestamp order = JBigInt ts ->
  orderExpiry (resolved w) + gracePeriod (resolved w) <= SECONDS_14_DAYS ->
  snd (isInGracePeriod (at_time w ms) ts tr) = Ok true ->
  exists rest,
    fst (cancelOrder (at_time w ms) c orderId tr)
    = tr ++ [CallOrders orderId; CallGetAddress s; CallCancelOrder orderId] ++ rest.
Proof.
  intros Hs Ho Hg Ht Hsum. rewrite isInGracePeriod_run. simpl. intros [= H].
  apply andb_true_iff in H as [_ H]. apply Z.leb_le in H.
  apply (cancelOrder_submits (at_time w ms) c s orderId order ts tr); auto.
  simpl. rewrite floor_seconds_div.
  apply Z.div_le_upper_bound; lia.
Qed.

(** X15. Whatever numeric type the ledger binding gives [order.timestamp],
    [fillOrder] and [cancelOrder] cannot both get past their deadline
    sums on the same order: for an active order read by its maker, one
    of them rejects with the TypeError of mixing BigInt and Number,
    before any approval or submission. *)
Theorem timestamp_type_clash
    (s : Signer) (params : FillOrderParams.t) (order : LedgerOrder.t) :
  signer c = Some s ->
  respond w (CallOrders (FillOrderParams.orderId params)) = Ok (Some order) ->
  LedgerOrder.isActive order = true ->
  respond w (CallGetAddress s) = Ok (LedgerOrder.maker order) ->
  fillOrder w c params tr
  = (tr ++ [CallOrders (FillOrderParams.orderId params)],
     Raised (rethrow "Failed to fill order" TypeError_mix)) \/
  cancelOrder w c (FillOrderParams.orderId params) tr
  = (tr ++ [CallOrders (FillOrderParams.orderId params)] ++ [CallGetAddress s],
     Raised (rethrow "Failed to cancel order" TypeError_mix)).
Proof.
  intros Hs Ho Ha Hg. destruct (LedgerOrder.timestamp order) as [ts|ts] eqn:Ht.
  - right. now apply (cancelOrder_number_timestamp w c s _ order ts tr).
  - left. now apply (fillOrder_bigint_timestamp w c s tr Hs params order ts).
Qed.

End Lifecycle.

(** ** Confirmations *)

Lemma find_event_first (name : string) (pre post : list EventLog) (e : EventLog) :
  fragment e = Some name ->
  (forall l, In l pre -> fragment l <> Some name) ->
  find_event name (pre ++ e :: post) = Some e.
Proof.
  intros He Hpre. unfold find_event.
  induction pre as [|l pre IH]; simpl.
  - now rewrite (proj2 (has_name_spec name e) He).
  - destruct (has_name name l) eqn:E.
    + apply has_name_spec in E. exfalso. apply (Hpre l); simpl; auto.
    + apply IH. intros l' Hl'. apply Hpre. simpl; auto.
Qed.

Lemma find_event_none (name : string) (ls : list EventLog) :
  (forall l, In l ls -> fragment l <> Some name) ->
  find_event name ls = None.
Proof.
  intros H. unfold find_event.
  induction ls as [|l ls IH]; simpl; [reflexivity |].
  destruct (has_name name l) eqn:E.
  - apply has_name_spec in E. exfalso. apply (H l); simpl; auto.
  - apply IH. intros l' Hl'. apply H. simpl; auto.
Qed.

Lemma count_records_total (k1 k2 k3 k4 : string) (ls : list EventLog) :
  k1 <> k2 -> k1 <> k3 -> k1 <> k4 -> k2 <> k3 -> k2 <> k4 -> k3 <> k4 ->
  (count_records k1 ls + count_records k2 ls + count_records k3 ls
   + count_records k4 ls <= length ls)%nat.
Proof.
  intros. induction ls as [|l ls IH]; simpl; [lia |].
  destruct (decide (fragment l = Some k1)), (decide (fragment l = Some k2)),
           (decide (fragment l = Some k3)), (decide (fragment l = Some k4));
    try congruence; lia.
Qed.

Section Confirmations.

Variable w : World.
Variable c : OTCClient.t.
Variable s : Signer.
Variable tr : Trace.
Hypothesis connected : signer c = Some s.

(** X16. A log of the cleanup confirmation goes to at most one of the
    four lists [cleanupExpiredOrders] returns, and a log without parsed
    fragment or of another event to none: the four lists together are no
    longer than the confirmation's logs.  The cleaned orders and the
    retries keep the order of the logs, and the hash returned is the
    confirmation's. *)
Theorem cleanupExpiredOrders_partitions (tx : Tx) (receipt : Receipt) :
  respond w CallCleanupExpiredOrders = Ok tx ->
  respond w (CallWait tx) = Ok receipt ->
  exists res : Cleanup,
    snd (cleanupExpiredOrders w c tr) = Ok res /\
    txHash res = hash receipt /\
    (length (cleanedOrders res) + length (errors res) + length (retries res)
     + length (feesDistributed res) <= length (logs receipt))%nat /\
    sublist (map cleaned_orderId (cleanedOrders res))
            (identifiers Args.orderId (logs receipt)) /\
    sublist (map retry_oldOrderId (retries res))
            (identifiers Args.oldOrderId (logs receipt)).
Proof.
  intros Htx Hr. unfold cleanupExpiredOrders.
  rewrite (require_signer_connected c s _ connected), snd_try_rethrow.
  rewrite (await_ok w _ _ _ _ Htx), (await_ok w _ _ _ _ Hr). simpl.
  eexists. split; [reflexivity |]. simpl. split; [reflexivity |].
  rewrite !length_map, !length_filter_events, !map_map. simpl.
  split; [apply count_records_total; discriminate |].
  unfold identifiers, filter_events.
  split; apply sublist_map, sublist_List_filter.
Qed.

(** X17. When every step of [createOrder] is answered, it has issued
    exactly the fee read, the approval, its confirmation, the creation
    with the fee as value, and its confirmation.  It then resolves from
    the first [OrderCreated] record of the confirmation, whatever
    follows it, and rejects with [OrderCreated event not found] when
    the confirmation has none. *)
Theorem createOrder_reads_first_event
    (params : OrderParams.t) (fee : N) (approveTx tx : Tx) (approved receipt : Receipt) :
  ~ invalid params ->
  let taker := default ZeroAddress (OrderParams.taker params) in
  let sellToken := OrderParams.sellToken params in
  let sellAmount := OrderParams.sellAmount params in
  let buyToken := OrderParams.buyToken params in
  let buyAmount := OrderParams.buyAmount params in
  let approval := CallApprove sellToken (target c) sellAmount in
  let creation := CallCreateOrder taker sellToken sellAmount buyToken buyAmount fee in
  respond w CallOrderCreationFee = Ok fee ->
  respond w approval = Ok approveTx ->
  respond w (CallWait approveTx) = Ok approved ->
  respond w creation = Ok tx ->
  respond w (CallWait tx) = Ok receipt ->
  fst (createOrder w c params tr)
  = tr ++ [CallOrderCreationFee; approval; CallWait approveTx; creation; CallWait tx] /\
  ((forall l, In l (logs receipt) -> fragment l <> Some "OrderCreated") ->
   snd (createOrder w c params tr)
   = Raised (JsError "Failed to create order: OrderCreated event not found")) /\
  (forall pre e post,
     logs receipt = pre ++ e :: post ->
     fragment e = Some "OrderCreated" ->
     (forall l, In l pre -> fragment l <> Some "OrderCreated") ->
     snd (createOrder w c params tr)
     = Ok {| created_orderId := Args.orderId (args e);
             created_txHash := hash receipt;
             created_maker := Args.maker (args e);
             creation :=
               {| c_timestamp := Number (Args.timestamp (args e));
                  c_blockNumber := blockNumber receipt;
                  c_fee := Args.orderCreationFee (args e) |} |}).
Proof.
  intros Hvalid taker sellToken sellAmount buyToken buyAmount approval creation
         Hfee Ha Hw1 Hc Hw2.
  assert (Hrun : createOrder w c params tr
                 = try_rethrow "Failed to create order"
                     (match find_event "OrderCreated" (logs receipt) with
                      | None => throw_error "OrderCreated event not found"
                      | Some event =>
                          ret {| created_orderId := Args.orderId (args event);
                                 created_txHash := hash receipt;
                                 created_maker := Args.maker (args event);
                                 creation :=
                                   {| c_timestamp := Number (Args.timestamp (args event));
                                      c_blockNumber := blockNumber receipt;
                                      c_fee := Args.orderCreationFee (args event) |} |}
                      end)
                     (tr ++ [CallOrderCreationFee; approval; CallWait approveTx;
                             creation; CallWait tx])).
  { unfold createOrder. rewrite (require_signer_connected c s _ connected).
    cbv zeta. unfold try_rethrow. rewrite (await_ok w _ _ _ _ Hfee).
    unfold invalid in Hvalid.
    destruct (strict_eq (OrderParams.sellToken params) ZeroAddress) eqn:E1;
      [apply strict_eq_true in E1; tauto |].
    destruct (strict_eq (OrderParams.buyToken params) ZeroAddress) eqn:E2;
      [apply strict_eq_true in E2; tauto |].
    destruct (strict_eq (OrderParams.sellToken params) (OrderParams.buyToken params)) eqn:E3;
      [apply strict_eq_true in E3; tauto |].
    destruct (OrderParams.sellAmount params <=? 0) eqn:E4;
      [apply Z.leb_le in E4; tauto |].
    destruct (OrderParams.buyAmount params <=? 0) eqn:E5;
      [apply Z.leb_le in E5; tauto |].
    rewrite (await_ok w _ _ _ _ Ha), (await_ok w _ _ _ _ Hw1).
    rewrite (await_ok w _ _ _ _ Hc), (await_ok w _ _ _ _ Hw2).
    rewrite <- !app_assoc. reflexivity. }
  rewrite Hrun, fst_try_rethrow, snd_try_rethrow.
  split; [now destruct (find_event _ _) |].
  split.
  - intros Hnone. now rewrite (find_event_none _ _ Hnone).
  - intros pre e post Hlogs He Hpre.
    now rewrite Hlogs, (find_event_first _ pre post e He Hpre).
Qed.

End Confirmations.

(** ** The further properties at sample inputs *)

Lemma no_signer_connected_iff_witness :
  snd (createOrder (world streams 0) disconnected swap [])
  = Raised (JsError "No signer connected") /\
  fst (createOrder (world streams 0) disconnected swap []) = [] /\
  snd (createOrder (world streams 0) (client ALICE) swap [])
  <> Raised (JsError "No signer connected").
Proof.
  destruct (no_signer_connected_iff (world streams 0) disconnected [])
    as (Hcreate & _).
  destruct (Hcreate swap) as [Hiff Hfst].
  split; [apply Hiff; reflexivity |]. split; [apply Hfst; reflexivity |].
  destruct (no_signer_connected_iff (world streams 0) (client ALICE) [])
    as (Hcreate' & _).
  intros H. apply (Hcreate' swap) in H. discriminate H.
Defined.


Lemma getActiveOrders_keeps_stream_order_witness :
  exists res : ActiveOrders,
    snd (getActiveOrders (world streams_filled 1001000) (client ALICE)
           GetActiveOrdersParams.empty []) = Ok res /\
    sublist (orders res) (map toOrder (createdEvents streams_filled)) /\
    (length (orders res) <= length (createdEvents streams_filled))%nat /\
    pagination res = {| hasMore := false; nextOffset := 0 |}.
Proof.
  apply (getActiveOrders_keeps_stream_order (world streams_filled 1001000)
           (client ALICE) [] GetActiveOrdersParams.empty streams_filled).
  repeat split.
Defined.

Lemma getActiveOrders_filter_values_witness :
  getActiveOrders (world streams 1001000) (client ALICE)
    (GetActiveOrdersParams.mk None None (Some ALICE) (Some "") None) []
  = getActiveOrders (world streams 1001000) (client ALICE)
      (GetActiveOrdersParams.mk None None (Some alice) None (Some "")) [].
Proof.
  apply (getActiveOrders_filter_values (world streams 1001000) (client ALICE) []);
    reflexivity.
Defined.

Lemma getActiveOrders_shrinks_with_time_witness :
  exists res res' : ActiveOrders,
    snd (getActiveOrders (at_time (world streams 0) 1001000) (client ALICE)
           GetActiveOrdersParams.empty []) = Ok res /\
    snd (getActiveOrders (at_time (world streams 0) 605900000) (client ALICE)
           GetActiveOrdersParams.empty []) = Ok res' /\
    forall o, In o (orders res') -> In o (orders res).
Proof.
  apply (getActiveOrders_shrinks_with_time (world streams 0) (client ALICE) []
           GetActiveOrdersParams.empty streams 1001000 605900000).
  - repeat split.
  - vm_compute. discriminate.
Defined.

Lemma createOrder_submission_guarded_witness :
  In (CallCreateOrder ZeroAddress TOKEN_A 100 TOKEN_B 50 3)
     (fst (createOrder creating (client ALICE) swap [])) /\
  ~ invalid swap /\
  respond creating CallOrderCreationFee = Ok 3%N.
Proof.
  destruct (createOrder_submission_guarded creating (client ALICE) [] swap)
    as (new & Hfst & _ & Hcreate).
  vm_compute in Hfst. subst new.
  split; [vm_compute; tauto |].
  destruct (Hcreate ZeroAddress TOKEN_A 100 TOKEN_B 50 3%N) as (Hv & _ & _ & _ & _ & _ & Hf & _).
  { simpl. tauto. }
  split; [exact Hv | exact Hf].
Defined.

Lemma fillOrder_submission_guarded_witness :
  In (CallFillOrder 44)
     (fst (fillOrder (world streams 2000000) (client BOB)
             (FillOrderParams.mk 44 TOKEN_B 50) [])) /\
  fillable (world streams 2000000) (client BOB) (FillOrderParams.mk 44 TOKEN_B 50).
Proof.
  destruct (fillOrder_submission_guarded (world streams 2000000) (client BOB) []
              (FillOrderParams.mk 44 TOKEN_B 50))
    as (new & Hfst & _ & Hfill).
  vm_compute in Hfst. subst new.
  split; [vm_compute; tauto |].
  apply (Hfill 44). simpl. tauto.
Defined.

Lemma cancelOrder_submission_guarded_witness :
  In (CallCancelOrder 42)
     (fst (cancelOrder (world streams 2000000) (client ALICE) 42 [])) /\
  cancelable (world streams 2000000) (client ALICE) 42.
Proof.
  destruct (cancelOrder_submission_guarded (world streams 2000000) (client ALICE) [] 42)
    as (new & Hfst & Hcancel).
  vm_compute in Hfst. subst new.
  split; [vm_compute; tauto |].
  apply (Hcancel 42). simpl. tauto.
Defined.



Lemma listing_and_isOrderExpired_witness :
  exists res : ActiveOrders,
    snd (getActiveOrders (at_time (world streams 0) 605800500) (client ALICE)
           GetActiveOrdersParams.empty []) = Ok res /\
    In (toOrder order42) (orders res) /\
    snd (isOrderExpired (at_time (world streams 0) 605800500) 1000 []) = Ok true.
Proof.
  destruct (listing_and_isOrderExpired (world streams 0) (client ALICE) []
              GetActiveOrdersParams.empty streams order42 605800500)
    as (res & Hrun & _ & Hwindow).
  - repeat split.
  - reflexivity.
  - simpl. auto.
  - repeat split; intros [].
  - repeat split.
  - exists res. split; [exact Hrun |]. apply Hwindow. vm_compute. split; reflexivity.
Defined.

Lemma maker_can_cancel_in_grace_period_witness :
  exists rest,
    fst (cancelOrder (at_time (world streams 0) 605801000) (client ALICE) 42 [])
    = [CallOrders 42; CallGetAddress ALICE; CallCancelOrder 42] ++ rest.
Proof.
  apply (maker_can_cancel_in_grace_period (world streams 0) (client ALICE) []
           ALICE 42 (LedgerOrder.mk ALICE BOB (JBigInt 1000) true) 1000 605801000);
    try reflexivity.
  vm_compute. discriminate.
Defined.

Lemma timestamp_type_clash_witness :
  fillOrder (world streams 2000000) (client ALICE) (FillOrderParams.mk 44 TOKEN_B 50) []
  = ([CallOrders 44], Raised (rethrow "Failed to fill order" TypeError_mix)) \/
  cancelOrder (world streams 2000000) (client ALICE) 44 []
  = ([CallOrders 44; CallGetAddress ALICE],
     Raised (rethrow "Failed to cancel order" TypeError_mix)).
Proof.
  apply (timestamp_type_clash (world streams 2000000) (client ALICE) [] ALICE
           (FillOrderParams.mk 44 TOKEN_B 50)
           (LedgerOrder.mk ALICE BOB (JNumber 1000) true));
    reflexivity.
Defined.

Lemma cleanupExpiredOrders_partitions_witness :
  exists res : Cleanup,
    snd (cleanupExpiredOrders (world streams 0) (client BOB) []) = Ok res /\
    txHash res = "0xc1ea" /\
    (length (cleanedOrders res) + length (errors res) + length (retries res)
     + length (feesDistributed res) <= 4)%nat /\
    sublist (map cleaned_orderId (cleanedOrders res)) [1; 2; 0; 3]%N /\
    sublist (map retry_oldOrderId (retries res)) [1; 2; 0; 3]%N.
Proof.
  apply (cleanupExpiredOrders_partitions (world streams 0) (client BOB) BOB []
           eq_refl 5%N cleanup_receipt); reflexivity.
Defined.

Lemma createOrder_reads_first_event_witness :
  createOrder creating (client ALICE) swap []
  = ([CallOrderCreationFee; CallApprove TOKEN_A LEDGER 100; CallWait 1%N;
      CallCreateOrder ZeroAddress TOKEN_A 100 TOKEN_B 50 3; CallWait 2%N],
     Ok {| created_orderId := 7;
           created_txHash := "0xc4ea";
           created_maker := ALICE;
           creation := {| c_timestamp := 1600; c_blockNumber := 6; c_fee := 3 |} |}).
Proof.
  assert (Hvalid : ~ invalid swap).
  { unfold invalid. simpl. intros [H | [H | [H | [H | H]]]]; try discriminate H;
      apply H; reflexivity. }
  destruct (createOrder_reads_first_event creating (client ALICE) ALICE [] eq_refl
              swap 3%N 1%N 2%N (mkReceipt "0x00" 5 []) creation_receipt Hvalid
              eq_refl eq_refl eq_refl eq_refl eq_refl)
    as (Hfst & _ & Hsnd).
  specialize (Hsnd [mkLog None no_args 6] (created 7 ALICE ZeroAddress 1600)
                [created 8 ALICE ZeroAddress 1600] eq_refl eq_refl).
  rewrite (surjective_pairing (createOrder creating (client ALICE) swap [])).
  rewrite Hfst, Hsnd; [reflexivity |].
  intros l [<- | []]. discriminate.
Defined.
